(** * SaveExtension: the save manager (Source/SaveExtension/Public/SaveManager.h)

    A shallow embedding of [USaveManager] and of the properties its
    specification states about it.

    Conventions of the embedding:
    - [int32] values are integers in [Z]; the header only compares them, so no
      wrap-around occurs in the functions embedded here;
    - a C++ pointer [T*] is an [option T], [nullptr] being [None];
    - a delegate ([FOnGameSaved], ...) is an optional identifier, [None]
      being the unbound delegate [{}];
    - member functions take the manager (or the world it lives in) and return
      the new one next to their C++ result. *)

From stdpp Require Import base gmap list strings sorting.
From Stdlib Require Import ZArith Lia Ascii String.

Open Scope Z_scope.

(** ** Engine types used by the header *)

Definition int32 := Z.

Definition INT32_MIN : Z := - 2 ^ 31.
Definition INT32_MAX : Z := 2 ^ 31 - 1.
Definition in_int32 (z : Z) : Prop := INT32_MIN <= z <= INT32_MAX.

(** [UObject]: an engine object, known by its identity. *)
Record UObject := { ObjectId : nat }.

(** [TScriptInterface<ISaveExtensionInterface>]: it holds an object pointer
    that the engine clears once the object is gone. *)
Record TScriptInterface := { ObjectPointer : option UObject }.

Definition GetObject (Interface : TScriptInterface) : option UObject :=
  ObjectPointer Interface.

(** A delegate is bound to a handler or unbound. *)
Definition FDelegate := option nat.

(** [FScreenshotSize], lines 34-47. *)
Record FScreenshotSize := { Width : int32; Height : int32 }.

Definition FScreenshotSize_default : FScreenshotSize :=
  {| Width := 640; Height := 360 |}.

(** [USavePreset] (SavePreset.h is not part of the sources): the header reads
    it through [GetMaxSlots] only. *)
Record USavePreset := { GetMaxSlots : int32 }.

(** [USlotInfo] (SlotInfo.h is not part of the sources): the header reads its
    [Id]; the save date is the timestamp of the slot. *)
Record USlotInfo := { Id : int32; SaveDate : Z }.

(** [USlotData] (SlotData.h is not part of the sources): the serialized
    world, opaque to the manager. *)
Record USlotData := { Records : list Z }.

#[global] Instance UObject_eq_dec : EqDecision UObject.
Proof. solve_decision. Defined.
#[global] Instance TScriptInterface_eq_dec : EqDecision TScriptInterface.
Proof. solve_decision. Defined.
#[global] Instance USlotInfo_eq_dec : EqDecision USlotInfo.
Proof. solve_decision. Defined.
#[global] Instance USlotData_eq_dec : EqDecision USlotData.
Proof. solve_decision. Defined.

(** ** [FString::FromInt]

    The engine's [FString::AppendInt]: the number is widened, negated when
    negative, and its digits are produced from the least significant one by
    a do-while loop into a buffer of 16 characters, one of which holds the
    terminator. *)

Definition NumberChar (d : Z) : ascii := ascii_of_nat (48 + Z.to_nat d).

Fixpoint AppendInt_loop (fuel : nat) (Num : Z) (TempNum : string) : string :=
  match fuel with
  | O => TempNum
  | S fuel' =>
      let TempNum' := String (NumberChar (Z.rem Num 10)) TempNum in
      let Num' := Z.quot Num 10 in
      if Num' =? 0 then TempNum' else AppendInt_loop fuel' Num' TempNum'
  end.

Definition FromInt (InNum : int32) : string :=
  let bIsNumberNegative := InNum <? 0 in
  let Num := if bIsNumberNegative then - InNum else InNum in
  let Digits := AppendInt_loop 15 Num EmptyString in
  if bIsNumberNegative then String "-"%char Digits else Digits.

(** Reading a string of decimal digits back, most significant digit first. *)
Definition digit_value (c : ascii) : Z := Z.of_nat (nat_of_ascii c) - 48.

Definition is_digit (c : ascii) : bool :=
  (0 <=? digit_value c) && (digit_value c <=? 9).

Fixpoint decimal_value_from (acc : Z) (s : string) : Z :=
  match s with
  | EmptyString => acc
  | String c s' => decimal_value_from (acc * 10 + digit_value c) s'
  end.

Definition decimal_value (s : string) : Z := decimal_value_from 0 s.

Fixpoint all_digits (s : string) : bool :=
  match s with
  | EmptyString => true
  | String c s' => is_digit c && all_digits s'
  end.

(** A canonical decimal numeral: digits only, at least one, and no leading
    zero except for the numeral of zero itself. *)
Definition canonical_decimal (s : string) : bool :=
  match s with
  | EmptyString => false
  | String c EmptyString => is_digit c
  | String c s' => is_digit c && negb (digit_value c =? 0) && all_digits s'
  end.

(** ** The manager *)

Inductive ETaskKind := Save | Load | EnumerateInfos | DeleteOne | DeleteAll.

Inductive ETaskState := Created | Running | Succeeded | Failed | Cancelled.

#[global] Instance ETaskKind_eq_dec : EqDecision ETaskKind.
Proof. solve_decision. Defined.
#[global] Instance ETaskState_eq_dec : EqDecision ETaskState.
Proof. solve_decision. Defined.

(** An in-flight operation. The task classes ([USlotDataTask] and the
    multithreaded tasks) are not part of the sources; the record holds the
    attributes the specification gives a Task: its kind, its state, the slot
    it targets, its completion delegate and its working data. *)
Record USlotDataTask := {
  Kind : ETaskKind;
  State : ETaskState;
  Slot : int32;
  Delegate : FDelegate;
  bOverride : bool;
  Screenshot : option FScreenshotSize;
  bSortByRecent : bool;
  InfoBuffer : option USlotInfo;
  DataBuffer : option USlotData
}.

(** The fields of [USaveManager], lines 66-95. [ActivePreset] stands for the
    preset [GetPreset] answers with: [IsValidSlot] dereferences it without a
    test. *)
Record USaveManager := {
  bTickWithGameWorld : bool;
  ActivePreset : USavePreset;
  CurrentInfo : option USlotInfo;
  CurrentData : option USlotData;
  SubscribedInterfaces : list TScriptInterface;
  Tasks : list USlotDataTask
}.

Definition GetPreset (m : USaveManager) : USavePreset := ActivePreset m.

(** Lines 451-455. *)
Definition IsValidSlot (m : USaveManager) (Slot : int32) : bool :=
  let MaxSlots := GetMaxSlots (GetPreset m) in
  (0 <=? Slot) && ((MaxSlots <=? 0) || (Slot <? MaxSlots)).

(** Lines 338-341. *)
Definition GenerateSlotName (m : USaveManager) (SlotId : int32) : string :=
  if IsValidSlot m SlotId then FromInt SlotId else EmptyString.

(** Lines 345-353. *)
Definition __SetCurrentInfo (m : USaveManager) (NewInfo : option USlotInfo) : USaveManager :=
  {| bTickWithGameWorld := bTickWithGameWorld m;
     ActivePreset := ActivePreset m;
     CurrentInfo := NewInfo;
     CurrentData := CurrentData m;
     SubscribedInterfaces := SubscribedInterfaces m;
     Tasks := Tasks m |}.

Definition __SetCurrentData (m : USaveManager) (NewData : option USlotData) : USaveManager :=
  {| bTickWithGameWorld := bTickWithGameWorld m;
     ActivePreset := ActivePreset m;
     CurrentInfo := CurrentInfo m;
     CurrentData := NewData;
     SubscribedInterfaces := SubscribedInterfaces m;
     Tasks := Tasks m |}.

(** Lines 322-325. *)
Definition IsInSlot (m : USaveManager) : bool :=
  bool_decide (is_Some (CurrentInfo m)) && bool_decide (is_Some (CurrentData m)).

(** Lines 384-394. *)
Definition HasTasks (m : USaveManager) : bool := (0 <? Z.of_nat (List.length (Tasks m))).

Definition IsSavingOrLoading (m : USaveManager) : bool := HasTasks m.

(** Lines 457-466. The callback receives a raw [UObject*]; the loop hands it
    the object of an interface only when that object is not null. The
    iteration runs over the array as it is when the loop starts. *)
Fixpoint IterateInterfaces {S : Type} (Interfaces : list TScriptInterface)
    (Callback : option UObject -> S -> S) (s : S) : S :=
  match Interfaces with
  | [] => s
  | Interface :: rest =>
      let s' := match GetObject Interface with
                | Some Object => Callback (Some Object) s
                | None => s
                end in
      IterateInterfaces rest Callback s'
  end.

Definition IterateSubscribedInterfaces {S : Type} (m : USaveManager)
    (Callback : option UObject -> S -> S) (s : S) : S :=
  IterateInterfaces (SubscribedInterfaces m) Callback s.

(** The subscribers whose object is still there, in subscription order. *)
Definition LiveSubscribers (m : USaveManager) : list UObject :=
  omap GetObject (SubscribedInterfaces m).

(** The slot a lazily instantiated current slot starts from. *)
Definition EmptySlotInfo : USlotInfo := {| Id := 0; SaveDate := 0 |}.
Definition EmptySlotData : USlotData := {| Records := [] |}.

(** Modelled from the spec: the body of [TryInstantiateInfo] (declared at line
    336, defined in SaveManager.cpp) is missing. Section 4.1: the current slot
    members are lazily instantiated, empty and not persisted, if none exists
    yet, so that callers always observe a non-null value. [bForced]
    instantiates them anew whatever they are. *)
Definition TryInstantiateInfo (m : USaveManager) (bForced : bool) : USaveManager :=
  let NewInfo := if bForced || negb (bool_decide (is_Some (CurrentInfo m)))
                 then Some EmptySlotInfo else CurrentInfo m in
  let NewData := if bForced || negb (bool_decide (is_Some (CurrentData m)))
                 then Some EmptySlotData else CurrentData m in
  __SetCurrentData (__SetCurrentInfo m NewInfo) NewData.

(** Lines 284-298. *)
Definition GetCurrentInfo (m : USaveManager) : option USlotInfo * USaveManager :=
  let m' := TryInstantiateInfo m false in (CurrentInfo m', m').

Definition GetCurrentData (m : USaveManager) : option USlotData * USaveManager :=
  let m' := TryInstantiateInfo m false in (CurrentData m', m').

(** ** The world around the manager *)

Inductive ENotification :=
  | SaveBegan
  | SaveFinished (bError : bool)
  | LoadBegan
  | LoadFinished (bError : bool).

(** What subscribers and delegates have observed, oldest first. A callback
    that were handed a null object would dereference it: [NullDereference]. *)
Inductive FEvent :=
  | Notified (Object : UObject) (n : ENotification)
  | NullDereference
  | GameSaved (Handler : nat) (SlotInfo : option USlotInfo)
  | GameLoaded (Handler : nat) (SlotInfo : option USlotInfo)
  | AllInfosLoaded (Handler : nat) (SlotInfos : list USlotInfo)
  | SlotsDeleted (Handler : nat).

(** The slot store maps a slot identifier to the two artifacts of the slot;
    [Game] is the live state a save snapshots and [Now] the clock. *)
Record FWorld := {
  Manager : USaveManager;
  Disk : gmap Z (USlotInfo * USlotData);
  Game : USlotData;
  Now : Z;
  Events : list FEvent
}.

Definition with_Manager (w : FWorld) (m : USaveManager) : FWorld :=
  {| Manager := m; Disk := Disk w; Game := Game w; Now := Now w; Events := Events w |}.

Definition with_Disk (w : FWorld) (d : gmap Z (USlotInfo * USlotData)) : FWorld :=
  {| Manager := Manager w; Disk := d; Game := Game w; Now := Now w; Events := Events w |}.

Definition with_Events (w : FWorld) (e : list FEvent) : FWorld :=
  {| Manager := Manager w; Disk := Disk w; Game := Game w; Now := Now w; Events := e |}.

Definition with_Tasks (m : USaveManager) (ts : list USlotDataTask) : USaveManager :=
  {| bTickWithGameWorld := bTickWithGameWorld m;
     ActivePreset := ActivePreset m;
     CurrentInfo := CurrentInfo m;
     CurrentData := CurrentData m;
     SubscribedInterfaces := SubscribedInterfaces m;
     Tasks := ts |}.

Definition with_SubscribedInterfaces (m : USaveManager) (l : list TScriptInterface) : USaveManager :=
  {| bTickWithGameWorld := bTickWithGameWorld m;
     ActivePreset := ActivePreset m;
     CurrentInfo := CurrentInfo m;
     CurrentData := CurrentData m;
     SubscribedInterfaces := l;
     Tasks := Tasks m |}.

Definition with_ActivePreset (m : USaveManager) (p : USavePreset) : USaveManager :=
  {| bTickWithGameWorld := bTickWithGameWorld m;
     ActivePreset := p;
     CurrentInfo := CurrentInfo m;
     CurrentData := CurrentData m;
     SubscribedInterfaces := SubscribedInterfaces m;
     Tasks := Tasks m |}.

Definition with_State (t : USlotDataTask) (s : ETaskState) : USlotDataTask :=
  {| Kind := Kind t; State := s; Slot := Slot t; Delegate := Delegate t;
     bOverride := bOverride t; Screenshot := Screenshot t;
     bSortByRecent := bSortByRecent t;
     InfoBuffer := InfoBuffer t; DataBuffer := DataBuffer t |}.

Definition with_Buffers (t : USlotDataTask) (i : option USlotInfo) (d : option USlotData) : USlotDataTask :=
  {| Kind := Kind t; State := State t; Slot := Slot t; Delegate := Delegate t;
     bOverride := bOverride t; Screenshot := Screenshot t;
     bSortByRecent := bSortByRecent t;
     InfoBuffer := i; DataBuffer := d |}.

(** The subsystem as [Initialize] leaves it: nothing loaded, no task. *)
Definition NewManager (Preset : USavePreset) : USaveManager :=
  {| bTickWithGameWorld := false;
     ActivePreset := Preset;
     CurrentInfo := None;
     CurrentData := None;
     SubscribedInterfaces := [];
     Tasks := [] |}.

Definition NewWorld (Preset : USavePreset) (disk : gmap Z (USlotInfo * USlotData))
    (game : USlotData) (now : Z) : FWorld :=
  {| Manager := NewManager Preset; Disk := disk; Game := game; Now := now; Events := [] |}.

(** ** Fan-out *)

(** A subscriber's handler runs on the object it is given. *)
Definition Notify (n : ENotification) (Object : option UObject) (tr : list FEvent) : list FEvent :=
  match Object with
  | Some o => tr ++ [Notified o n]
  | None => tr ++ [NullDereference]
  end.

(** Modelled from the spec: the bodies of [OnSaveBegan], [OnSaveFinished],
    [OnLoadBegan] and [OnLoadFinished] (lines 430-433) are missing. Section
    4.5: each notification is delivered, in subscription order, to every live
    subscriber. *)
Definition Broadcast (w : FWorld) (n : ENotification) : FWorld :=
  with_Events w (IterateSubscribedInterfaces (Manager w) (Notify n) (Events w)).

Definition OnSaveBegan (w : FWorld) : FWorld := Broadcast w SaveBegan.
Definition OnSaveFinished (w : FWorld) (bError : bool) : FWorld := Broadcast w (SaveFinished bError).
Definition OnLoadBegan (w : FWorld) : FWorld := Broadcast w LoadBegan.
Definition OnLoadFinished (w : FWorld) (bError : bool) : FWorld := Broadcast w (LoadFinished bError).

(** [ExecuteIfBound] of a one-shot delegate. *)
Definition ExecuteIfBound (w : FWorld) (d : FDelegate) (ev : nat -> FEvent) : FWorld :=
  match d with
  | Some h => with_Events w (Events w ++ [ev h])
  | None => w
  end.

(** Modelled from the spec: the delivery of a notification of a Task is
    missing with the task classes. Section 4.5: subscribers first, the Task's
    own one-shot callback last. *)
Definition Deliver (w : FWorld) (n : ENotification) (d : FDelegate) (ev : nat -> FEvent) : FWorld :=
  ExecuteIfBound (Broadcast w n) d ev.

(** ** Requests *)

Definition ExclusiveKind (k : ETaskKind) : bool :=
  match k with
  | Save | Load | DeleteAll => true
  | EnumerateInfos | DeleteOne => false
  end.

Definition IsExclusive (t : USlotDataTask) : bool := ExclusiveKind (Kind t).

(** The exclusive Tasks of the active set. *)
Definition ExclusiveTasks (m : USaveManager) : list USlotDataTask :=
  List.filter IsExclusive (Tasks m).

(** Modelled from the spec: the body of [CanLoadOrSave] (declared at line 359)
    is missing. Sections 3 (I1) and 4.1: a save or a load is refused while an
    exclusive Task is active. *)
Definition CanLoadOrSave (m : USaveManager) : bool :=
  negb (existsb IsExclusive (Tasks m)).

(** Modelled from the spec: the body of [IsSlotSaved] (declared at line 316)
    is missing. Section 6: [Exists(slotId)] of the slot store. *)
Definition IsSlotSaved (w : FWorld) (Slot : int32) : bool :=
  bool_decide (is_Some (Disk w !! Slot)).

(** Modelled from the spec: the body of [CreateTask] (declared at line 373) is
    missing. Section 2: the manager creates and tracks the active Tasks. *)
Definition CreateTask (m : USaveManager) (t : USlotDataTask) : USaveManager :=
  with_Tasks m (Tasks m ++ [t]).

Definition NewTask (k : ETaskKind) (SlotId : int32) (d : FDelegate) : USlotDataTask :=
  {| Kind := k; State := Created; Slot := SlotId; Delegate := d;
     bOverride := false; Screenshot := None; bSortByRecent := false;
     InfoBuffer := None; DataBuffer := None |}.

Definition SaveTask (w : FWorld) (SlotId : int32) (bOverrideIfNeeded bScreenshot : bool)
    (Size : FScreenshotSize) (OnSaved : FDelegate) : USlotDataTask :=
  {| Kind := Save; State := Running; Slot := SlotId; Delegate := OnSaved;
     bOverride := bOverrideIfNeeded;
     Screenshot := if bScreenshot then Some Size else None;
     bSortByRecent := false;
     InfoBuffer := Some {| Id := SlotId; SaveDate := Now w |};
     DataBuffer := Some (Game w) |}.

Definition LoadTask (SlotId : int32) (OnLoaded : FDelegate) : USlotDataTask :=
  with_State (NewTask Load SlotId OnLoaded) Running.

(** Modelled from the spec: the body of [SaveSlot(int32, ...)] (declared at
    lines 119-120) is missing. Section 4.1, RequestSave: it fails at once,
    with no Task and no callback, if the slot is invalid, an exclusive Task is
    active, or the slot is on disk and must not be overridden; otherwise it
    creates and starts a Save Task, whose beginning is notified. *)
Definition SaveSlot (w : FWorld) (SlotId : int32) (bOverrideIfNeeded bScreenshot : bool)
    (Size : FScreenshotSize) (OnSaved : FDelegate) : bool * FWorld :=
  if negb (IsValidSlot (Manager w) SlotId) then (false, w)
  else if negb (CanLoadOrSave (Manager w)) then (false, w)
  else if IsSlotSaved w SlotId && negb bOverrideIfNeeded then (false, w)
  else
    let Task := SaveTask w SlotId bOverrideIfNeeded bScreenshot Size OnSaved in
    (true, OnSaveBegan (with_Manager w (CreateTask (Manager w) Task))).

(** Lines 123-131. *)
Definition SaveSlotInfo (w : FWorld) (SlotInfo : option USlotInfo)
    (bOverrideIfNeeded bScreenshot : bool) (Size : FScreenshotSize)
    (OnSaved : FDelegate) : bool * FWorld :=
  match SlotInfo with
  | None => (false, w)
  | Some Info => SaveSlot w (Id Info) bOverrideIfNeeded bScreenshot Size OnSaved
  end.

(** Lines 134-137. *)
Definition SaveCurrentSlot (w : FWorld) (bScreenshot : bool) (Size : FScreenshotSize)
    (OnSaved : FDelegate) : bool * FWorld :=
  SaveSlotInfo w (CurrentInfo (Manager w)) true bScreenshot Size OnSaved.

(** Modelled from the spec: the body of [LoadSlot(int32, ...)] (declared at
    line 140) is missing. Section 4.1, RequestLoad: it fails at once if the
    slot is invalid or not on disk, or an exclusive Task is active; otherwise
    it creates and starts a Load Task, whose beginning is notified. *)
Definition LoadSlot (w : FWorld) (SlotId : int32) (OnLoaded : FDelegate) : bool * FWorld :=
  if negb (IsValidSlot (Manager w) SlotId) then (false, w)
  else if negb (IsSlotSaved w SlotId) then (false, w)
  else if negb (CanLoadOrSave (Manager w)) then (false, w)
  else (true, OnLoadBegan (with_Manager w (CreateTask (Manager w) (LoadTask SlotId OnLoaded)))).

(** Lines 143-146. *)
Definition LoadSlotInfo (w : FWorld) (SlotInfo : option USlotInfo) (OnLoaded : FDelegate)
    : bool * FWorld :=
  match SlotInfo with
  | Some Info => LoadSlot w (Id Info) OnLoaded
  | None => (false, w)
  end.

(** Lines 149-152. *)
Definition ReloadCurrentSlot (w : FWorld) (OnLoaded : FDelegate) : bool * FWorld :=
  LoadSlotInfo w (CurrentInfo (Manager w)) OnLoaded.

(** Modelled from the spec: the body of [DeleteSlot(int32)] (declared at line
    165) is missing. Section 4.1: it answers at once, false if an exclusive
    Task is active or the slot does not exist; otherwise the slot is removed
    from the store. *)
Definition DeleteSlot (w : FWorld) (SlotId : int32) : bool * FWorld :=
  if negb (CanLoadOrSave (Manager w)) then (false, w)
  else if negb (IsSlotSaved w SlotId) then (false, w)
  else (true, with_Disk w (delete SlotId (Disk w))).

(** Lines 277-282. *)
Definition DeleteSlotInfo (w : FWorld) (Slot : option USlotInfo) : bool * FWorld :=
  match Slot with
  | None => (false, w)
  | Some Info => DeleteSlot w (Id Info)
  end.

(** Lines 253-256. *)
Definition DeleteSlotFromId (w : FWorld) (SlotId : int32) : bool * FWorld :=
  DeleteSlot w SlotId.

(** Modelled from the spec: the body of [DeleteAllSlots] (declared at line
    168, returning nothing) is missing. Sections 4.1 and 8: an exclusive Task,
    so the request is dropped while an exclusive Task is active. *)
Definition DeleteAllSlots (w : FWorld) (OnDeleted : FDelegate) : FWorld :=
  if negb (CanLoadOrSave (Manager w)) then w
  else with_Manager w
         (CreateTask (Manager w) (with_State (NewTask DeleteAll 0 OnDeleted) Running)).

(** *** Listing the slots *)

Definition ByRecent (a b : USlotInfo) : Prop := SaveDate b <= SaveDate a.
Definition ById (a b : USlotInfo) : Prop := Id a <= Id b.

#[global] Instance ByRecent_dec : RelDecision ByRecent.
Proof. intros a b. unfold ByRecent. apply _. Defined.
#[global] Instance ById_dec : RelDecision ById.
Proof. intros a b. unfold ById. apply _. Defined.

(** The slot infos found on storage under a valid identifier. *)
Definition StoredSlotInfos (w : FWorld) : list USlotInfo :=
  (fun kv => fst (snd kv))
    <$> List.filter (fun kv => IsValidSlot (Manager w) (fst kv)) (map_to_list (Disk w)).

(** Modelled from the spec: the listing itself lives in the missing
    LoadAllSlotInfosTask. Section 4.1: the list is ordered by descending save
    time when [bSortByRecent] is set, otherwise by ascending identifier. *)
Definition ListSlotInfos (w : FWorld) (bSortByRecent : bool) : list USlotInfo :=
  if bSortByRecent then merge_sort ByRecent (StoredSlotInfos w)
  else merge_sort ById (StoredSlotInfos w).

(** Modelled from the spec: the body of [LoadAllSlotInfosSync] (declared at
    line 160) is missing. Section 4.1: the listing is done inline and the
    callback is invoked before returning. *)
Definition LoadAllSlotInfosSync (w : FWorld) (bSortByRecent : bool) (OnLoaded : FDelegate) : FWorld :=
  ExecuteIfBound w OnLoaded (fun h => AllInfosLoaded h (ListSlotInfos w bSortByRecent)).

Definition EnumerateTask (bSort : bool) (OnLoaded : FDelegate) : USlotDataTask :=
  {| Kind := EnumerateInfos; State := Running; Slot := 0; Delegate := OnLoaded;
     bOverride := false; Screenshot := None; bSortByRecent := bSort;
     InfoBuffer := None; DataBuffer := None |}.

(** Modelled from the spec: the body of [LoadAllSlotInfos] (declared at line
    159) is missing. Section 4.1: the listing is delegated to a background
    Task. *)
Definition LoadAllSlotInfos (w : FWorld) (bSortByRecent : bool) (OnLoaded : FDelegate) : FWorld :=
  with_Manager w (CreateTask (Manager w) (EnumerateTask bSortByRecent OnLoaded)).

(** Modelled from the spec: the body of [SetActivePreset] (declared at line
    332) is missing. Section 4.1: the preset is swapped, and the request is
    refused while any Task is active. *)
Definition SetActivePreset (m : USaveManager) (Preset : USavePreset) : bool * USaveManager :=
  if HasTasks m then (false, m) else (true, with_ActivePreset m Preset).

(** Modelled from the spec: the bodies of [SubscribeForEvents] and
    [UnsubscribeFromEvents] (declared at lines 424 and 428) are missing.
    Section 4.1: a reference is added to, or removed from, the fan-out set;
    both are idempotent. *)
Definition SubscribeForEvents (m : USaveManager) (Interface : TScriptInterface) : USaveManager :=
  if bool_decide (Interface ∈ SubscribedInterfaces m) then m
  else with_SubscribedInterfaces m (SubscribedInterfaces m ++ [Interface]).

Definition UnsubscribeFromEvents (m : USaveManager) (Interface : TScriptInterface) : USaveManager :=
  with_SubscribedInterfaces m
    (List.filter (fun I => negb (bool_decide (I = Interface))) (SubscribedInterfaces m)).

(** The engine clears the references to an object it destroys. *)
Definition ObjectDestroyed (m : USaveManager) (Object : UObject) : USaveManager :=
  with_SubscribedInterfaces m
    ((fun I => if bool_decide (GetObject I = Some Object)
               then {| ObjectPointer := None |} else I) <$> SubscribedInterfaces m).

(** ** The per-tick behaviour *)

(** What the background worker of a Task reports at a tick. *)
Inductive EWorkerSignal := Pending | Completed | IOError.

Definition IsTerminal (t : USlotDataTask) : bool :=
  match State t with
  | Succeeded | Failed | Cancelled => true
  | Created | Running => false
  end.

(** Modelled from the spec: the task classes are missing. Section 4.2: a
    Task goes from Created to Running, and from Running to Succeeded or
    Failed once its background phase reports; a Load fails when the slot
    cannot be read, and otherwise holds the decoded slot. *)
Definition StepTask (w : FWorld) (signal : USlotDataTask -> EWorkerSignal)
    (t : USlotDataTask) : USlotDataTask :=
  match State t with
  | Created => with_State t Running
  | Running =>
      match signal t with
      | Pending => t
      | IOError => with_State t Failed
      | Completed =>
          match Kind t with
          | Load =>
              match Disk w !! Slot t with
              | Some (i, d) => with_State (with_Buffers t (Some i) (Some d)) Succeeded
              | None => with_State t Failed
              end
          | _ => with_State t Succeeded
          end
      end
  | _ => t
  end.

Definition bSuccess (t : USlotDataTask) : bool := bool_decide (State t = Succeeded).

(** The current slot is set from the buffers of a Task. *)
Definition SetCurrentSlot (m : USaveManager) (t : USlotDataTask) : USaveManager :=
  __SetCurrentData (__SetCurrentInfo m (InfoBuffer t)) (DataBuffer t).

Definition WriteSlot (w : FWorld) (t : USlotDataTask) : FWorld :=
  match InfoBuffer t, DataBuffer t with
  | Some i, Some d => with_Disk w (<[Slot t := (i, d)]> (Disk w))
  | _, _ => w
  end.

Definition ReportedInfo (w : FWorld) (t : USlotDataTask) : option USlotInfo :=
  if bSuccess t then CurrentInfo (Manager w) else None.

(** Modelled from the spec: the body of [FinishTask] (declared at line 381)
    is missing. Sections 4.1, 4.2 and 4.5: a Task that reached a terminal
    state is finalized; a successful save or load sets the current slot, a
    successful bulk delete empties the store, and the outcome goes to the
    subscribers first and to the Task's own callback last. *)
Definition FinishTask (w : FWorld) (t : USlotDataTask) : FWorld :=
  match Kind t with
  | Save =>
      let w1 := if bSuccess t
                then with_Manager (WriteSlot w t) (SetCurrentSlot (Manager w) t)
                else w in
      Deliver w1 (SaveFinished (negb (bSuccess t))) (Delegate t)
        (fun h => GameSaved h (ReportedInfo w1 t))
  | Load =>
      let w1 := if bSuccess t
                then with_Manager w (SetCurrentSlot (Manager w) t)
                else w in
      Deliver w1 (LoadFinished (negb (bSuccess t))) (Delegate t)
        (fun h => GameLoaded h (ReportedInfo w1 t))
  | EnumerateInfos =>
      ExecuteIfBound w (Delegate t)
        (fun h => AllInfosLoaded h (if bSuccess t then ListSlotInfos w (bSortByRecent t) else []))
  | DeleteAll =>
      ExecuteIfBound (if bSuccess t then with_Disk w ∅ else w) (Delegate t) SlotsDeleted
  | DeleteOne => w
  end.

(** Modelled from the spec: the body of [Tick] (declared at line 400) is
    missing. Section 4.1: every active Task advances by one step, then the
    Tasks that reached a terminal state are removed and finalized. *)
Definition Tick (w : FWorld) (signal : USlotDataTask -> EWorkerSignal) : FWorld :=
  let Stepped := StepTask w signal <$> Tasks (Manager w) in
  let Finished := List.filter IsTerminal Stepped in
  let Remaining := List.filter (fun t => negb (IsTerminal t)) Stepped in
  foldl FinishTask (with_Manager w (with_Tasks (Manager w) Remaining)) Finished.

(** Modelled from the spec: the body of [Deinitialize] (declared at line 108)
    is missing. Section 4.2: tearing the manager down cancels every Task,
    and none outlives it. *)
Definition Deinitialize (w : FWorld) : FWorld :=
  foldl FinishTask (with_Manager w (with_Tasks (Manager w) []))
    ((fun t => with_State t Cancelled) <$> Tasks (Manager w)).

(** ** Sequences of requests *)

Inductive FRequest :=
  | ReqSaveSlot (SlotId : int32) (bOverrideIfNeeded bScreenshot : bool)
      (Size : FScreenshotSize) (OnSaved : FDelegate)
  | ReqSaveSlotInfo (SlotInfo : option USlotInfo) (bOverrideIfNeeded bScreenshot : bool)
      (Size : FScreenshotSize) (OnSaved : FDelegate)
  | ReqSaveCurrentSlot (bScreenshot : bool) (Size : FScreenshotSize) (OnSaved : FDelegate)
  | ReqLoadSlot (SlotId : int32) (OnLoaded : FDelegate)
  | ReqLoadSlotInfo (SlotInfo : option USlotInfo) (OnLoaded : FDelegate)
  | ReqReloadCurrentSlot (OnLoaded : FDelegate)
  | ReqLoadAllSlotInfos (bSort : bool) (OnLoaded : FDelegate)
  | ReqLoadAllSlotInfosSync (bSort : bool) (OnLoaded : FDelegate)
  | ReqDeleteSlot (SlotId : int32)
  | ReqDeleteSlotInfo (Slot : option USlotInfo)
  | ReqDeleteAllSlots (OnDeleted : FDelegate)
  | ReqGetCurrentInfo
  | ReqGetCurrentData
  | ReqSetActivePreset (Preset : USavePreset)
  | ReqSubscribeForEvents (Interface : TScriptInterface)
  | ReqUnsubscribeFromEvents (Interface : TScriptInterface)
  | ReqObjectDestroyed (Object : UObject)
  | ReqSetCurrentInfo (NewInfo : option USlotInfo)
  | ReqSetCurrentData (NewData : option USlotData)
  | ReqTick (signal : USlotDataTask -> EWorkerSignal).

(** One request: the value it answers with is dropped, the world is kept. *)
Definition Perform (w : FWorld) (r : FRequest) : FWorld :=
  match r with
  | ReqSaveSlot id ov sc sz cb => snd (SaveSlot w id ov sc sz cb)
  | ReqSaveSlotInfo p ov sc sz cb => snd (SaveSlotInfo w p ov sc sz cb)
  | ReqSaveCurrentSlot sc sz cb => snd (SaveCurrentSlot w sc sz cb)
  | ReqLoadSlot id cb => snd (LoadSlot w id cb)
  | ReqLoadSlotInfo p cb => snd (LoadSlotInfo w p cb)
  | ReqReloadCurrentSlot cb => snd (ReloadCurrentSlot w cb)
  | ReqLoadAllSlotInfos b cb => LoadAllSlotInfos w b cb
  | ReqLoadAllSlotInfosSync b cb => LoadAllSlotInfosSync w b cb
  | ReqDeleteSlot id => snd (DeleteSlot w id)
  | ReqDeleteSlotInfo p => snd (DeleteSlotInfo w p)
  | ReqDeleteAllSlots cb => DeleteAllSlots w cb
  | ReqGetCurrentInfo => with_Manager w (snd (GetCurrentInfo (Manager w)))
  | ReqGetCurrentData => with_Manager w (snd (GetCurrentData (Manager w)))
  | ReqSetActivePreset p => with_Manager w (snd (SetActivePreset (Manager w) p))
  | ReqSubscribeForEvents i => with_Manager w (SubscribeForEvents (Manager w) i)
  | ReqUnsubscribeFromEvents i => with_Manager w (UnsubscribeFromEvents (Manager w) i)
  | ReqObjectDestroyed o => with_Manager w (ObjectDestroyed (Manager w) o)
  | ReqSetCurrentInfo p => with_Manager w (__SetCurrentInfo (Manager w) p)
  | ReqSetCurrentData p => with_Manager w (__SetCurrentData (Manager w) p)
  | ReqTick signal => Tick w signal
  end.

Definition Run (w : FWorld) (rs : list FRequest) : FWorld := foldl Perform w rs.

(** At most one exclusive Task is active. *)
Definition AtMostOneExclusive (m : USaveManager) : Prop :=
  (List.length (ExclusiveTasks m) <= 1)%nat.

(** ** The current slot pair along a run *)


(** The two members are both null or both set. *)
Definition PairWhole (m : USaveManager) : Prop :=
  CurrentInfo m = None <-> CurrentData m = None.

(** The two buffers of a Task are both empty or both filled. *)
Definition TaskWhole (t : USlotDataTask) : Prop :=
  InfoBuffer t = None <-> DataBuffer t = None.

(** ** The rest of the header *)

(** The implicit conversion of an [int32] argument to a [uint32] parameter. *)
Definition to_uint32 (z : Z) : Z := z mod 2 ^ 32.

Section DeclaredOnly.

(** The result enumerations and [FLatentActionInfo] come from headers that
    are not part of the sources, and [BPSaveSlotToId] (lines 180-181),
    [BPLoadSlotFromId] (line 213) and [LoadInfo] (line 355) are declared
    only: the functions of the header that use them take them as
    parameters. [Result] is passed by reference: the functions take the
    value it holds and return the one they leave in it. *)
Context {ESaveGameResult ELoadGameResult FLatentActionInfo : Type}.
Variable ESaveGameResult_Failed : ESaveGameResult.
Variable ELoadGameResult_Failed : ELoadGameResult.
Variable BPSaveSlotToId :
  FWorld -> int32 -> bool -> FScreenshotSize -> ESaveGameResult ->
  FLatentActionInfo -> bool -> ESaveGameResult * FWorld.
Variable BPLoadSlotFromId :
  FWorld -> int32 -> ELoadGameResult -> FLatentActionInfo -> ELoadGameResult * FWorld.
Variable LoadInfo : FWorld -> Z -> option USlotInfo.

(** Lines 187-196. *)
Definition BPSaveSlot (w : FWorld) (SlotInfo : option USlotInfo) (bScreenshot : bool)
    (Size : FScreenshotSize) (Result : ESaveGameResult) (LatentInfo : FLatentActionInfo)
    (bOverrideIfNeeded : bool) : ESaveGameResult * FWorld :=
  match SlotInfo with
  | None => (ESaveGameResult_Failed, w)
  | Some Info =>
      BPSaveSlotToId w (Id Info) bScreenshot Size Result LatentInfo bOverrideIfNeeded
  end.

(** Lines 202-206. *)
Definition BPSaveCurrentSlot (w : FWorld) (bScreenshot : bool) (Size : FScreenshotSize)
    (Result : ESaveGameResult) (LatentInfo : FLatentActionInfo)
    : ESaveGameResult * FWorld :=
  BPSaveSlot w (CurrentInfo (Manager w)) bScreenshot Size Result LatentInfo true.

(** Lines 219-227. *)
Definition BPLoadSlot (w : FWorld) (SlotInfo : option USlotInfo)
    (Result : ELoadGameResult) (LatentInfo : FLatentActionInfo)
    : ELoadGameResult * FWorld :=
  match SlotInfo with
  | None => (ELoadGameResult_Failed, w)
  | Some Info => BPLoadSlotFromId w (Id Info) Result LatentInfo
  end.

(** Lines 233-236. *)
Definition BPReloadCurrentSlot (w : FWorld) (Result : ELoadGameResult)
    (LatentInfo : FLatentActionInfo) : ELoadGameResult * FWorld :=
  BPLoadSlot w (CurrentInfo (Manager w)) Result LatentInfo.

(** Lines 307-310: the [int32] identifier is handed to [LoadInfo], whose
    parameter is a [uint32]. *)
Definition GetSlotInfo (w : FWorld) (SlotId : int32) : option USlotInfo :=
  LoadInfo w (to_uint32 SlotId).

End DeclaredOnly.

(** ** Worlds used in the examples *)

Definition Preset5 : USavePreset := {| GetMaxSlots := 5 |}.

Definition Info1 : USlotInfo := {| Id := 1; SaveDate := 10 |}.
Definition Info2 : USlotInfo := {| Id := 2; SaveDate := 30 |}.
Definition Info3 : USlotInfo := {| Id := 3; SaveDate := 20 |}.
Definition Data1 : USlotData := {| Records := [1] |}.
Definition Data2 : USlotData := {| Records := [2] |}.
Definition Data3 : USlotData := {| Records := [3] |}.

Definition ExampleDisk : gmap Z (USlotInfo * USlotData) :=
  <[1 := (Info1, Data1)]> (<[2 := (Info2, Data2)]> (<[3 := (Info3, Data3)]> ∅)).

Definition ExampleWorld : FWorld := NewWorld Preset5 ExampleDisk {| Records := [7] |} 100.

Definition AllCompleted : USlotDataTask -> EWorkerSignal := fun _ => Completed.

(** Slot 1 has been loaded. *)
Definition LoadedWorld : FWorld :=
  Run ExampleWorld [ReqLoadSlot 1 None; ReqTick AllCompleted].

(** A save into slot 3 is in flight. *)
Definition SavingWorld : FWorld :=
  Run ExampleWorld [ReqSaveSlot 3 true false FScreenshotSize_default None].


(** The preset without a maximum: every non-negative slot is valid. *)
Definition UnboundedWorld : FWorld :=
  NewWorld {| GetMaxSlots := 0 |} ExampleDisk {| Records := [7] |} 100.

Definition SubscriberA : UObject := {| ObjectId := 1 |}.
Definition SubscriberB : UObject := {| ObjectId := 2 |}.
Definition SubscriberC : UObject := {| ObjectId := 3 |}.

(** Three subscribers, the second of which has been destroyed since. *)
Definition SubscribedWorld : FWorld :=
  Run ExampleWorld
    [ReqSubscribeForEvents {| ObjectPointer := Some SubscriberA |};
     ReqSubscribeForEvents {| ObjectPointer := Some SubscriberC |};
     ReqSubscribeForEvents {| ObjectPointer := Some SubscriberB |};
     ReqObjectDestroyed SubscriberC].

(** One subscriber, destroyed since. *)
Definition DeadWorld : FWorld :=
  Run ExampleWorld
    [ReqSubscribeForEvents {| ObjectPointer := Some SubscriberC |};
     ReqObjectDestroyed SubscriberC].

(** The subscribers of [SubscribedWorld] followed by those of [DeadWorld]. *)
Definition JoinedWorld : FWorld :=
  with_Manager ExampleWorld
    (with_SubscribedInterfaces (Manager ExampleWorld)
       (SubscribedInterfaces (Manager SubscribedWorld)
        ++ SubscribedInterfaces (Manager DeadWorld))).

(** Slot 1 under another save date. *)
Definition Info1Later : USlotInfo := {| Id := 1; SaveDate := 99 |}.

(** * Properties *)

(** ** The decimal name of a slot *)

Lemma append_String (a : ascii) (s t : string) :
  String.append (String a s) t = String a (String.append s t).
Proof. reflexivity. Qed.

Lemma append_snoc_buffer (s : string) (c : ascii) (t : string) :
  String.append (String.append s (String c EmptyString)) t = String.append s (String c t).
Proof.
  induction s as [|a s IHs]; [reflexivity|].
  rewrite !append_String. by rewrite IHs.
Qed.

Lemma AppendInt_loop_buffer (fuel : nat) : forall (Num : Z) (TempNum : string),
  AppendInt_loop fuel Num TempNum = String.append (AppendInt_loop fuel Num EmptyString) TempNum.
Proof.
  induction fuel as [|fuel IH]; intros Num TempNum; cbn [AppendInt_loop]; [reflexivity|].
  destruct (Z.quot Num 10 =? 0); [reflexivity|].
  rewrite (IH _ (String _ TempNum)), (IH _ (String _ EmptyString)).
  by rewrite append_snoc_buffer.
Qed.

Lemma digit_value_NumberChar (d : Z) : 0 <= d <= 9 -> digit_value (NumberChar d) = d.
Proof.
  intros Hd. unfold digit_value, NumberChar.
  rewrite nat_ascii_embedding by lia. lia.
Qed.

Lemma is_digit_NumberChar (d : Z) : 0 <= d <= 9 -> is_digit (NumberChar d) = true.
Proof.
  intros Hd. unfold is_digit. rewrite digit_value_NumberChar by done.
  apply andb_true_intro; split; lia.
Qed.

Lemma decimal_value_from_snoc (s : string) : forall (acc : Z) (c : ascii),
  decimal_value_from acc (String.append s (String c EmptyString))
  = decimal_value_from acc s * 10 + digit_value c.
Proof.
  induction s as [|a s IH]; intros acc c; [reflexivity|].
  rewrite append_String. cbn [decimal_value_from]. apply IH.
Qed.

Lemma all_digits_snoc (s : string) (c : ascii) :
  all_digits s = true -> is_digit c = true ->
  all_digits (String.append s (String c EmptyString)) = true.
Proof.
  induction s as [|a s IH]; intros Hs Hc.
  - change (is_digit c && true = true). by rewrite Hc.
  - rewrite append_String. cbn [all_digits] in *.
    apply andb_prop in Hs as [Ha Hs]. rewrite Ha. by apply IH.
Qed.

Lemma canonical_decimal_snoc (s : string) (c : ascii) :
  canonical_decimal s = true -> 0 < decimal_value s -> is_digit c = true ->
  canonical_decimal (String.append s (String c EmptyString)) = true.
Proof.
  destruct s as [|a [|b s]]; intros Hs Hpos Hc; [done| |].
  - unfold decimal_value in Hpos. cbn in Hs, Hpos.
    change (is_digit a && negb (digit_value a =? 0) && (is_digit c && true) = true).
    rewrite Hs, Hc. cbn. rewrite andb_true_r. apply negb_true_iff. lia.
  - rewrite append_String. cbn [canonical_decimal] in Hs.
    apply andb_prop in Hs as [Ha Hs].
    pose proof (all_digits_snoc (String b s) c Hs Hc) as Hall.
    rewrite append_String in Hall |- *.
    cbn [canonical_decimal]. by rewrite Ha, Hall.
Qed.

Lemma AppendInt_loop_decimal (fuel : nat) : forall Num : Z,
  (0 < fuel)%nat -> 0 <= Num < 10 ^ Z.of_nat fuel ->
  canonical_decimal (AppendInt_loop fuel Num EmptyString) = true
  /\ decimal_value (AppendInt_loop fuel Num EmptyString) = Num.
Proof.
  induction fuel as [|fuel IH]; intros Num Hfuel HNum.
  - lia.
  - cbn [AppendInt_loop].
    rewrite Z.quot_div_nonneg, Z.rem_mod_nonneg by lia.
    pose proof (Z.mod_pos_bound Num 10 ltac:(lia)) as Hmod.
    pose proof (Z.div_mod Num 10 ltac:(lia)) as Hdiv.
    destruct (Z.eqb_spec (Num / 10) 0) as [Hq|Hq].
    + split.
      * simpl. apply is_digit_NumberChar. lia.
      * unfold decimal_value. simpl. rewrite digit_value_NumberChar by lia. lia.
    + rewrite AppendInt_loop_buffer.
      assert (0 < Num / 10 < 10 ^ Z.of_nat fuel) as Hrange.
      { assert (0 <= Num / 10) by (apply Z.div_pos; lia).
        split; [lia|]. apply Z.div_lt_upper_bound; [lia|].
        rewrite Nat2Z.inj_succ, Z.pow_succ_r in HNum by lia. lia. }
      assert (0 < fuel)%nat as Hfuel'.
      { destruct fuel; [simpl in Hrange|]; lia. }
      destruct (IH (Num / 10) Hfuel' ltac:(lia)) as [Hc Hv].
      split.
      * apply canonical_decimal_snoc; [done | lia | apply is_digit_NumberChar; lia].
      * unfold decimal_value. rewrite decimal_value_from_snoc.
        fold (decimal_value (AppendInt_loop fuel (Num / 10) EmptyString)).
        rewrite Hv, digit_value_NumberChar by lia. lia.
Qed.

Lemma FromInt_decimal (Num : int32) :
  0 <= Num -> in_int32 Num ->
  canonical_decimal (FromInt Num) = true /\ decimal_value (FromInt Num) = Num.
Proof.
  intros Hpos [_ Hmax]. unfold FromInt.
  destruct (Z.ltb_spec Num 0) as [?|_]; [lia|].
  apply AppendInt_loop_decimal; [lia|]. unfold INT32_MAX in Hmax. simpl. lia.
Qed.

(** ** Tasks of the active set *)

Lemma Manager_Broadcast (w : FWorld) (n : ENotification) :
  Manager (Broadcast w n) = Manager w /\ Disk (Broadcast w n) = Disk w.
Proof. done. Qed.

Lemma Manager_ExecuteIfBound (w : FWorld) (d : FDelegate) (ev : nat -> FEvent) :
  Manager (ExecuteIfBound w d ev) = Manager w.
Proof. by destruct d. Qed.

Lemma Manager_Deliver (w : FWorld) (n : ENotification) (d : FDelegate) (ev : nat -> FEvent) :
  Manager (Deliver w n d ev) = Manager w.
Proof. unfold Deliver. by rewrite Manager_ExecuteIfBound. Qed.

Lemma Tasks_FinishTask (w : FWorld) (t : USlotDataTask) :
  Tasks (Manager (FinishTask w t)) = Tasks (Manager w).
Proof.
  unfold FinishTask.
  destruct (Kind t); rewrite ?Manager_Deliver, ?Manager_ExecuteIfBound;
    try destruct (bSuccess t); done.
Qed.

Lemma Tasks_foldl_FinishTask (ts : list USlotDataTask) : forall w : FWorld,
  Tasks (Manager (foldl FinishTask w ts)) = Tasks (Manager w).
Proof.
  induction ts as [|t ts IH]; intros w; [done|].
  cbn [foldl]. by rewrite IH, Tasks_FinishTask.
Qed.

Lemma Kind_StepTask (w : FWorld) (signal : USlotDataTask -> EWorkerSignal) (t : USlotDataTask) :
  Kind (StepTask w signal t) = Kind t.
Proof.
  unfold StepTask.
  destruct (State t); try done.
  destruct (signal t); try done.
  destruct (Kind t) eqn:Hk; try done.
  destruct (Disk w !! Slot t) as [[i d]|]; done.
Qed.

Lemma Tasks_Tick (w : FWorld) (signal : USlotDataTask -> EWorkerSignal) :
  Tasks (Manager (Tick w signal))
  = List.filter (fun t => negb (IsTerminal t)) (StepTask w signal <$> Tasks (Manager w)).
Proof. unfold Tick. by rewrite Tasks_foldl_FinishTask. Qed.

Lemma exclusive_after_step (w : FWorld) (signal : USlotDataTask -> EWorkerSignal)
    (ts : list USlotDataTask) :
  (List.length (List.filter IsExclusive
     (List.filter (fun t => negb (IsTerminal t)) (StepTask w signal <$> ts)))
   <= List.length (List.filter IsExclusive ts))%nat.
Proof.
  induction ts as [|t ts IH]; [done|].
  cbn [fmap list_fmap List.filter].
  assert (IsExclusive (StepTask w signal t) = IsExclusive t) as Hk
    by (unfold IsExclusive; by rewrite Kind_StepTask).
  destruct (negb (IsTerminal (StepTask w signal t))); cbn [List.filter];
    rewrite ?Hk; destruct (IsExclusive t); cbn [List.length]; lia.
Qed.

Lemma existsb_filter_nil {A} (f : A -> bool) (l : list A) :
  existsb f l = false <-> List.filter f l = [].
Proof.
  induction l as [|a l IH]; [done|].
  cbn [existsb List.filter]. destruct (f a); cbn; [split; done|exact IH].
Qed.

Lemma CanLoadOrSave_true (m : USaveManager) :
  CanLoadOrSave m = true <-> ExclusiveTasks m = [].
Proof.
  unfold CanLoadOrSave, ExclusiveTasks.
  rewrite negb_true_iff. apply existsb_filter_nil.
Qed.

Lemma CanLoadOrSave_false (m : USaveManager) :
  CanLoadOrSave m = false <-> ExclusiveTasks m <> [].
Proof.
  rewrite <- CanLoadOrSave_true. destruct (CanLoadOrSave m); split; congruence.
Qed.

Lemma HasTasks_of_exclusive (m : USaveManager) :
  ExclusiveTasks m <> [] -> HasTasks m = true.
Proof.
  unfold ExclusiveTasks, HasTasks. destruct (Tasks m); [done|]. intros _.
  apply Z.ltb_lt. cbn [List.length]. lia.
Qed.

Lemma ExclusiveTasks_CreateTask (m : USaveManager) (t : USlotDataTask) :
  ExclusiveTasks (CreateTask m t)
  = ExclusiveTasks m ++ (if IsExclusive t then [t] else []).
Proof.
  unfold ExclusiveTasks, CreateTask. cbn [Tasks with_Tasks].
  rewrite List.filter_app. cbn [List.filter]. by destruct (IsExclusive t).
Qed.

Lemma AtMostOneExclusive_CreateTask (m : USaveManager) (t : USlotDataTask) :
  AtMostOneExclusive m -> (IsExclusive t = true -> CanLoadOrSave m = true) ->
  AtMostOneExclusive (CreateTask m t).
Proof.
  unfold AtMostOneExclusive. intros Hm Ht.
  rewrite ExclusiveTasks_CreateTask, length_app.
  destruct (IsExclusive t); cbn [List.length]; [|lia].
  apply CanLoadOrSave_true in Ht; [|done]. rewrite Ht. cbn. lia.
Qed.

Lemma AtMostOneExclusive_SaveSlot w id ov sc sz cb :
  AtMostOneExclusive (Manager w) ->
  AtMostOneExclusive (Manager (snd (SaveSlot w id ov sc sz cb))).
Proof.
  intros Hw. unfold SaveSlot.
  destruct (negb (IsValidSlot (Manager w) id)); [done|].
  destruct (CanLoadOrSave (Manager w)) eqn:Hcan; [|done]. cbn [negb].
  destruct (IsSlotSaved w id && negb ov); [done|].
  cbn [snd]. unfold OnSaveBegan.
  apply AtMostOneExclusive_CreateTask; done.
Qed.

Lemma AtMostOneExclusive_LoadSlot w id cb :
  AtMostOneExclusive (Manager w) ->
  AtMostOneExclusive (Manager (snd (LoadSlot w id cb))).
Proof.
  intros Hw. unfold LoadSlot.
  destruct (negb (IsValidSlot (Manager w) id)); [done|].
  destruct (negb (IsSlotSaved w id)); [done|].
  destruct (CanLoadOrSave (Manager w)) eqn:Hcan; [|done].
  cbn [negb snd]. apply AtMostOneExclusive_CreateTask; done.
Qed.

Lemma AtMostOneExclusive_DeleteSlot w id :
  AtMostOneExclusive (Manager w) ->
  AtMostOneExclusive (Manager (snd (DeleteSlot w id))).
Proof.
  intros Hw. unfold DeleteSlot.
  destruct (negb (CanLoadOrSave (Manager w))); [done|].
  destruct (negb (IsSlotSaved w id)); done.
Qed.

Lemma AtMostOneExclusive_Tick w signal :
  AtMostOneExclusive (Manager w) -> AtMostOneExclusive (Manager (Tick w signal)).
Proof.
  unfold AtMostOneExclusive, ExclusiveTasks. intros Hw.
  rewrite Tasks_Tick.
  pose proof (exclusive_after_step w signal (Tasks (Manager w))). lia.
Qed.

Lemma AtMostOneExclusive_Perform (w : FWorld) (r : FRequest) :
  AtMostOneExclusive (Manager w) -> AtMostOneExclusive (Manager (Perform w r)).
Proof.
  intros Hw.
  destruct r as [id ov sc sz cb | p ov sc sz cb | sc sz cb | id cb | p cb | cb
                | b cb | b cb | id | p | cb | | | preset | i | i | o | p | p | signal];
    cbn [Perform].
  - by apply AtMostOneExclusive_SaveSlot.
  - destruct p; [by apply AtMostOneExclusive_SaveSlot | done].
  - unfold SaveCurrentSlot, SaveSlotInfo.
    destruct (CurrentInfo (Manager w)); [by apply AtMostOneExclusive_SaveSlot | done].
  - by apply AtMostOneExclusive_LoadSlot.
  - destruct p; [by apply AtMostOneExclusive_LoadSlot | done].
  - unfold ReloadCurrentSlot, LoadSlotInfo.
    destruct (CurrentInfo (Manager w)); [by apply AtMostOneExclusive_LoadSlot | done].
  - apply AtMostOneExclusive_CreateTask; done.
  - unfold LoadAllSlotInfosSync. by rewrite Manager_ExecuteIfBound.
  - by apply AtMostOneExclusive_DeleteSlot.
  - destruct p; [by apply AtMostOneExclusive_DeleteSlot | done].
  - unfold DeleteAllSlots.
    destruct (CanLoadOrSave (Manager w)) eqn:Hcan; [|done].
    cbn [negb]. apply AtMostOneExclusive_CreateTask; done.
  - done.
  - done.
  - unfold SetActivePreset. destruct (HasTasks (Manager w)); done.
  - unfold SubscribeForEvents. case_bool_decide; done.
  - done.
  - done.
  - done.
  - done.
  - by apply AtMostOneExclusive_Tick.
Qed.

Lemma AtMostOneExclusive_Run (rs : list FRequest) : forall w : FWorld,
  AtMostOneExclusive (Manager w) -> AtMostOneExclusive (Manager (Run w rs)).
Proof.
  induction rs as [|r rs IH]; intros w Hw; [done|].
  apply IH. by apply AtMostOneExclusive_Perform.
Qed.

(** C1. Whatever sequence of requests the manager has served since it was
    initialized, at most one exclusive Task (Save, Load, DeleteAll) is active;
    and while one is active a further exclusive request is rejected: [SaveSlot]
    and [LoadSlot] answer false and [DeleteAllSlots] (which answers nothing)
    returns, each leaving the world as it was, so that no Task is created and
    no notification is sent. *)
Theorem exclusive_requests_never_overlap
    (Preset : USavePreset) (disk : gmap Z (USlotInfo * USlotData)) (game : USlotData)
    (now : Z) (rs : list FRequest) :
  let w := Run (NewWorld Preset disk game now) rs in
  AtMostOneExclusive (Manager w)
  /\ (ExclusiveTasks (Manager w) <> [] ->
      forall (SlotId : int32) (bOverrideIfNeeded bScreenshot : bool)
             (Size : FScreenshotSize) (d : FDelegate),
        SaveSlot w SlotId bOverrideIfNeeded bScreenshot Size d = (false, w)
        /\ LoadSlot w SlotId d = (false, w)
        /\ DeleteAllSlots w d = w).
Proof.
  intros w. split.
  - apply AtMostOneExclusive_Run. unfold AtMostOneExclusive. cbn. lia.
  - intros Hex SlotId ov sc sz d.
    apply CanLoadOrSave_false in Hex.
    unfold SaveSlot, LoadSlot, DeleteAllSlots. rewrite Hex. cbn [negb].
    repeat split.
    + by destruct (negb (IsValidSlot (Manager w) SlotId)).
    + destruct (negb (IsValidSlot (Manager w) SlotId)); [done|].
      by destruct (negb (IsSlotSaved w SlotId)).
Qed.

(** ** Validation and fan-out *)

Lemma IsValidSlot_iff (m : USaveManager) (Slot : int32) :
  IsValidSlot m Slot = true
  <-> 0 <= Slot /\ (GetMaxSlots (GetPreset m) <= 0 \/ Slot < GetMaxSlots (GetPreset m)).
Proof.
  unfold IsValidSlot. cbn zeta.
  rewrite andb_true_iff, orb_true_iff, Z.leb_le, Z.leb_le, Z.ltb_lt. done.
Qed.

Lemma IsValidSlot_false_iff (m : USaveManager) (Slot : int32) :
  IsValidSlot m Slot = false
  <-> Slot < 0 \/ (0 < GetMaxSlots (GetPreset m) /\ GetMaxSlots (GetPreset m) <= Slot).
Proof.
  rewrite <- not_true_iff_false, IsValidSlot_iff. lia.
Qed.

Lemma IsSlotSaved_iff (w : FWorld) (Slot : int32) :
  IsSlotSaved w Slot = true <-> is_Some (Disk w !! Slot).
Proof. unfold IsSlotSaved. by rewrite bool_decide_eq_true. Qed.

Lemma IsSlotSaved_false_iff (w : FWorld) (Slot : int32) :
  IsSlotSaved w Slot = false <-> Disk w !! Slot = None.
Proof.
  unfold IsSlotSaved. rewrite bool_decide_eq_false. symmetry. apply eq_None_not_Some.
Qed.

Lemma IterateInterfaces_foldl {S : Type} (Callback : option UObject -> S -> S)
    (Interfaces : list TScriptInterface) : forall s : S,
  IterateInterfaces Interfaces Callback s
  = foldl (fun s Object => Callback (Some Object) s) s (omap GetObject Interfaces).
Proof.
  induction Interfaces as [|Interface rest IH]; intros s; [done|].
  cbn [IterateInterfaces omap list_omap].
  rewrite IH. by destruct (GetObject Interface).
Qed.

Lemma foldl_Notify (n : ENotification) (Objects : list UObject) : forall tr : list FEvent,
  foldl (fun tr Object => Notify n (Some Object) tr) tr Objects
  = tr ++ ((fun Object => Notified Object n) <$> Objects).
Proof.
  induction Objects as [|o Objects IH]; intros tr; cbn [foldl fmap list_fmap].
  - by rewrite app_nil_r.
  - rewrite IH. cbn [Notify]. by rewrite <- app_assoc.
Qed.

Lemma Events_Broadcast (w : FWorld) (n : ENotification) :
  Events (Broadcast w n)
  = Events w ++ ((fun Object => Notified Object n) <$> LiveSubscribers (Manager w)).
Proof.
  unfold Broadcast, IterateSubscribedInterfaces, LiveSubscribers. cbn [Events with_Events].
  by rewrite IterateInterfaces_foldl, foldl_Notify.
Qed.

(** C3. [SaveSlot] answers false exactly when the slot identifier is invalid,
    an exclusive Task is active, or the slot is on disk and must not be
    overridden; it then leaves the world as it was (no Task, no callback).
    In every other case it answers true and the active set has gained a
    started Save Task for the slot, whose beginning the live subscribers have
    been told. *)
Theorem SaveSlot_fails_exactly_when (w : FWorld) (SlotId : int32)
    (bOverrideIfNeeded bScreenshot : bool) (Size : FScreenshotSize) (OnSaved : FDelegate) :
  let r := SaveSlot w SlotId bOverrideIfNeeded bScreenshot Size OnSaved in
  (fst r = false
   <-> IsValidSlot (Manager w) SlotId = false
       \/ ExclusiveTasks (Manager w) <> []
       \/ (is_Some (Disk w !! SlotId) /\ bOverrideIfNeeded = false))
  /\ (fst r = false -> snd r = w)
  /\ (fst r = true ->
      let Task := SaveTask w SlotId bOverrideIfNeeded bScreenshot Size OnSaved in
      Kind Task = Save /\ State Task = Running /\ Slot Task = SlotId
      /\ Tasks (Manager (snd r)) = Tasks (Manager w) ++ [Task]
      /\ Events (snd r)
         = Events w ++ ((fun Object => Notified Object SaveBegan)
                          <$> LiveSubscribers (Manager w))).
Proof.
  cbn zeta. unfold SaveSlot.
  rewrite <- CanLoadOrSave_false, <- IsSlotSaved_iff.
  destruct (IsValidSlot (Manager w) SlotId); cbn [negb];
    [|repeat split; auto; done].
  destruct (CanLoadOrSave (Manager w)); cbn [negb];
    [|repeat split; auto; done].
  destruct (IsSlotSaved w SlotId), bOverrideIfNeeded; cbn [negb andb fst snd];
    repeat split; try done; try (intros [|[|[]]]; done); auto;
    unfold OnSaveBegan; by rewrite Events_Broadcast.
Qed.

(** C4. [LoadSlot] of a slot that is invalid or not on disk, or while an
    exclusive Task is active, answers false and leaves the world as it was
    (no Task, no callback); otherwise it answers true and the active set has
    gained a started Load Task for the slot. *)
Theorem LoadSlot_fails_synchronously (w : FWorld) (SlotId : int32) (OnLoaded : FDelegate) :
  let r := LoadSlot w SlotId OnLoaded in
  (IsValidSlot (Manager w) SlotId = false
   \/ Disk w !! SlotId = None
   \/ ExclusiveTasks (Manager w) <> [] ->
   r = (false, w))
  /\ (~ (IsValidSlot (Manager w) SlotId = false
         \/ Disk w !! SlotId = None
         \/ ExclusiveTasks (Manager w) <> []) ->
      let Task := LoadTask SlotId OnLoaded in
      fst r = true
      /\ Kind Task = Load /\ State Task = Running /\ Slot Task = SlotId
      /\ Tasks (Manager (snd r)) = Tasks (Manager w) ++ [Task]
      /\ Events (snd r)
         = Events w ++ ((fun Object => Notified Object LoadBegan)
                          <$> LiveSubscribers (Manager w))).
Proof.
  cbn zeta. unfold LoadSlot.
  rewrite <- CanLoadOrSave_false, <- IsSlotSaved_false_iff.
  destruct (IsValidSlot (Manager w) SlotId); cbn [negb];
    [|split; [done | intros H; exfalso; apply H; by left]].
  destruct (IsSlotSaved w SlotId); cbn [negb];
    [|split; [done | intros H; exfalso; apply H; right; by left]].
  destruct (CanLoadOrSave (Manager w)); cbn [negb];
    [|split; [done | intros H; exfalso; apply H; right; by right]].
  split.
  - intros [|[|]]; done.
  - intros _. cbn [fst snd]. repeat split; try done.
    unfold OnLoadBegan. by rewrite Events_Broadcast.
Qed.

(** C5. [IsValidSlot] accepts [S] exactly when [S] is non-negative and the
    maximum [M] is either not positive or greater than [S]; a negative [S],
    and an [S] at or above a positive [M], is rejected, and [SaveSlot] and
    [LoadSlot] refuse it without creating a Task. *)
Theorem IsValidSlot_accepts_exactly (w : FWorld) (S : int32) :
  let M := GetMaxSlots (GetPreset (Manager w)) in
  (IsValidSlot (Manager w) S = true <-> 0 <= S /\ (M <= 0 \/ S < M))
  /\ (S < 0 \/ (0 < M /\ M <= S) ->
      IsValidSlot (Manager w) S = false
      /\ forall (bOverrideIfNeeded bScreenshot : bool) (Size : FScreenshotSize) (d : FDelegate),
           SaveSlot w S bOverrideIfNeeded bScreenshot Size d = (false, w)
           /\ LoadSlot w S d = (false, w)).
Proof.
  cbn zeta. split; [apply IsValidSlot_iff|].
  intros Hbad. apply IsValidSlot_false_iff in Hbad.
  split; [done|]. intros ov sc sz d.
  unfold SaveSlot, LoadSlot. by rewrite Hbad.
Qed.

(** C6. The name generated for a valid slot identifier is [FromInt] of it, the
    canonical decimal numeral whose value is the identifier; the name
    generated for an invalid identifier is the empty string, which is the
    name of no valid slot; and valid identifiers with the same name are
    equal. *)
Theorem GenerateSlotName_decimal_or_empty (m : USaveManager) (SlotId : int32) :
  in_int32 SlotId ->
  (IsValidSlot m SlotId = true ->
   GenerateSlotName m SlotId = FromInt SlotId
   /\ canonical_decimal (GenerateSlotName m SlotId) = true
   /\ decimal_value (GenerateSlotName m SlotId) = SlotId)
  /\ (IsValidSlot m SlotId = false ->
      GenerateSlotName m SlotId = EmptyString
      /\ forall Other : int32,
           in_int32 Other -> IsValidSlot m Other = true ->
           GenerateSlotName m Other <> GenerateSlotName m SlotId)
  /\ (forall Other : int32,
        in_int32 Other -> IsValidSlot m SlotId = true -> IsValidSlot m Other = true ->
        GenerateSlotName m Other = GenerateSlotName m SlotId -> Other = SlotId).
Proof.
  intros Hint.
  assert (forall x, in_int32 x -> IsValidSlot m x = true ->
            GenerateSlotName m x = FromInt x
            /\ canonical_decimal (GenerateSlotName m x) = true
            /\ decimal_value (GenerateSlotName m x) = x) as Hvalid.
  { intros x Hx Hv. unfold GenerateSlotName. rewrite Hv.
    apply IsValidSlot_iff in Hv as [Hpos _].
    destruct (FromInt_decimal x Hpos Hx). done. }
  split; [by apply Hvalid|]. split.
  - intros Hbad. unfold GenerateSlotName at 1 3. rewrite Hbad.
    split; [done|]. intros Other HO HvO Heq.
    destruct (Hvalid Other HO HvO) as (_ & Hc & _).
    rewrite Heq in Hc. done.
  - intros Other HO Hv HvO Heq.
    destruct (Hvalid Other HO HvO) as (_ & _ & H1).
    destruct (Hvalid SlotId Hint Hv) as (_ & _ & H2).
    congruence.
Qed.

(** C7. [GetCurrentInfo] and [GetCurrentData] never return null: a missing
    member is instantiated empty on the call, a present one is returned as it
    is, and the slot store is not written. *)
Theorem current_slot_getters_never_null (w : FWorld) :
  let m := Manager w in
  fst (GetCurrentInfo m) <> None
  /\ fst (GetCurrentData m) <> None
  /\ (CurrentInfo m = None -> fst (GetCurrentInfo m) = Some EmptySlotInfo)
  /\ (CurrentData m = None -> fst (GetCurrentData m) = Some EmptySlotData)
  /\ (CurrentInfo m = None -> CurrentData m = None ->
      CurrentInfo (snd (GetCurrentInfo m)) = Some EmptySlotInfo
      /\ CurrentData (snd (GetCurrentInfo m)) = Some EmptySlotData
      /\ snd (GetCurrentData m) = snd (GetCurrentInfo m))
  /\ (forall i, CurrentInfo m = Some i -> fst (GetCurrentInfo m) = Some i)
  /\ (forall d, CurrentData m = Some d -> fst (GetCurrentData m) = Some d)
  /\ Disk (Perform w ReqGetCurrentInfo) = Disk w
  /\ Disk (Perform w ReqGetCurrentData) = Disk w.
Proof.
  cbn zeta. unfold GetCurrentInfo, GetCurrentData, TryInstantiateInfo.
  cbn [fst snd orb CurrentInfo CurrentData __SetCurrentInfo __SetCurrentData Perform Disk with_Manager].
  destruct (CurrentInfo (Manager w)) as [i|], (CurrentData (Manager w)) as [d|];
    cbn; repeat split; try done; congruence.
Qed.

(** C8. [IterateSubscribedInterfaces] invokes the callback on the objects of
    the subscribed interfaces that are not null, in subscription order, and
    on nothing else; the delivery of a notification therefore adds one
    [Notified] event per live subscriber, in order, no [NullDereference],
    and only then the event of the Task's own callback if it is bound. *)
Theorem fan_out_reaches_live_subscribers_in_order (w : FWorld) :
  (forall (S : Type) (Callback : option UObject -> S -> S) (s : S),
     IterateSubscribedInterfaces (Manager w) Callback s
     = foldl (fun s Object => Callback (Some Object) s) s (LiveSubscribers (Manager w)))
  /\ (forall Object : UObject,
        Object ∈ LiveSubscribers (Manager w)
        <-> {| ObjectPointer := Some Object |} ∈ SubscribedInterfaces (Manager w))
  /\ (forall (n : ENotification) (d : FDelegate) (ev : nat -> FEvent),
        Events (Deliver w n d ev)
        = Events w
          ++ ((fun Object => Notified Object n) <$> LiveSubscribers (Manager w))
          ++ (match d with Some h => [ev h] | None => [] end)).
Proof.
  split; [|split].
  - intros S Callback s. apply IterateInterfaces_foldl.
  - intros Object. unfold LiveSubscribers. rewrite list_elem_of_omap. split.
    + intros ([p] & Hin & Hp). cbn in Hp. by subst p.
    + intros Hin. by exists {| ObjectPointer := Some Object |}.
  - intros n d ev. unfold Deliver, ExecuteIfBound.
    destruct d as [h|]; cbn [Events with_Events]; rewrite Events_Broadcast.
    + by rewrite <- app_assoc.
    + by rewrite app_nil_r.
Qed.

(** C10. The [USlotInfo*] overloads of [SaveSlot], [LoadSlot] and [DeleteSlot]
    answer false on a null pointer and leave the world as it was; hence
    [SaveCurrentSlot] and [ReloadCurrentSlot] answer false when there is no
    current slot info. *)
Theorem null_slot_info_is_refused (w : FWorld) :
  (forall (bOverrideIfNeeded bScreenshot : bool) (Size : FScreenshotSize) (d : FDelegate),
     SaveSlotInfo w None bOverrideIfNeeded bScreenshot Size d = (false, w))
  /\ (forall d : FDelegate, LoadSlotInfo w None d = (false, w))
  /\ DeleteSlotInfo w None = (false, w)
  /\ (CurrentInfo (Manager w) = None ->
      (forall (bScreenshot : bool) (Size : FScreenshotSize) (d : FDelegate),
         SaveCurrentSlot w bScreenshot Size d = (false, w))
      /\ (forall d : FDelegate, ReloadCurrentSlot w d = (false, w))).
Proof.
  split; [done|]. split; [done|]. split; [done|].
  intros Hnull. split.
  - intros sc sz d. unfold SaveCurrentSlot. by rewrite Hnull.
  - intros d. unfold ReloadCurrentSlot. by rewrite Hnull.
Qed.

(** ** Listing *)

#[global] Instance ByRecent_total : Total ByRecent.
Proof. intros a b. unfold ByRecent. lia. Qed.
#[global] Instance ByRecent_trans : Transitive ByRecent.
Proof. intros a b c. unfold ByRecent. lia. Qed.
#[global] Instance ById_total : Total ById.
Proof. intros a b. unfold ById. lia. Qed.
#[global] Instance ById_trans : Transitive ById.
Proof. intros a b c. unfold ById. lia. Qed.







(** ** Examples *)

Example LoadedWorld_current :
  CurrentInfo (Manager LoadedWorld) = Some Info1
  /\ CurrentData (Manager LoadedWorld) = Some Data1
  /\ Tasks (Manager LoadedWorld) = [].
Proof. vm_compute. done. Qed.

Example ScenarioA :
  let w := Run ExampleWorld
             [ReqSaveSlot 3 true false FScreenshotSize_default (Some 1%nat);
              ReqSaveSlot 4 true false FScreenshotSize_default (Some 2%nat);
              ReqTick AllCompleted] in
  Events w = [GameSaved 1 (Some {| Id := 3; SaveDate := 100 |})]
  /\ Tasks (Manager w) = []
  /\ Disk w !! 3 = Some ({| Id := 3; SaveDate := 100 |}, {| Records := [7] |})
  /\ Disk w !! 4 = None.
Proof. vm_compute. done. Qed.

Example ScenarioC : ListSlotInfos ExampleWorld true = [Info2; Info3; Info1]
  /\ ListSlotInfos ExampleWorld false = [Info1; Info2; Info3].
Proof. vm_compute. done. Qed.

Example FromInt_examples :
  FromInt 0 = "0"%string /\ FromInt 7 = "7"%string /\ FromInt 1234 = "1234"%string
  /\ FromInt (-56) = "-56"%string /\ FromInt INT32_MAX = "2147483647"%string
  /\ FromInt INT32_MIN = "-2147483648"%string.
Proof. vm_compute. done. Qed.


(** ** The current slot pair *)

Lemma IsInSlot_after_setters (m : USaveManager) (NewInfo : USlotInfo) (NewData : USlotData) :
  IsInSlot (__SetCurrentData (__SetCurrentInfo m (Some NewInfo)) (Some NewData)) = true.
Proof. done. Qed.


Lemma Tasks_Deinitialize (w : FWorld) : Tasks (Manager (Deinitialize w)) = [].
Proof. unfold Deinitialize. by rewrite Tasks_foldl_FinishTask. Qed.

(** Each of [__SetCurrentInfo] and [__SetCurrentData] replaces its own member
    of the current slot pair and leaves the other one as it was; once both
    have been called with a new slot, [GetCurrentInfo] and [GetCurrentData]
    return that slot in full and change nothing. *)
Theorem current_pair_follows_both_setters (m : USaveManager)
    (NewInfo : USlotInfo) (NewData : USlotData) :
  let m1 := __SetCurrentInfo m (Some NewInfo) in
  let m2 := __SetCurrentData m1 (Some NewData) in
  (forall p : option USlotInfo,
     CurrentInfo (__SetCurrentInfo m p) = p
     /\ CurrentData (__SetCurrentInfo m p) = CurrentData m)
  /\ (forall p : option USlotData,
        CurrentData (__SetCurrentData m p) = p
        /\ CurrentInfo (__SetCurrentData m p) = CurrentInfo m)
  /\ GetCurrentInfo m2 = (Some NewInfo, m2)
  /\ GetCurrentData m2 = (Some NewData, m2).
Proof. cbn zeta. repeat split. Qed.

(** A direct call of one setter is another matter: with slot 1 loaded,
    [__SetCurrentInfo] called alone with the info of slot 2 leaves an observer
    with the info of slot 2 next to the data of slot 1. *)
Lemma SetCurrentInfo_alone_mixes_slots :
  fst (GetCurrentInfo (Manager LoadedWorld)) = Some Info1
  /\ fst (GetCurrentData (Manager LoadedWorld)) = Some Data1
  /\ fst (GetCurrentInfo (__SetCurrentInfo (Manager LoadedWorld) (Some Info2))) = Some Info2
  /\ fst (GetCurrentData (__SetCurrentInfo (Manager LoadedWorld) (Some Info2))) = Some Data1
  /\ Disk LoadedWorld !! 1 = Some (Info1, Data1)
  /\ Disk LoadedWorld !! 2 = Some (Info2, Data2)
  /\ Info2 <> Info1 /\ Data1 <> Data2.
Proof. vm_compute. repeat split; done. Qed.

(** ** The current slot pair at the completion of a Task *)

Lemma FinishTask_pair (w : FWorld) (t : USlotDataTask) :
  (CurrentInfo (Manager (FinishTask w t)) = CurrentInfo (Manager w)
   /\ CurrentData (Manager (FinishTask w t)) = CurrentData (Manager w))
  \/ (State t = Succeeded
      /\ CurrentInfo (Manager (FinishTask w t)) = InfoBuffer t
      /\ CurrentData (Manager (FinishTask w t)) = DataBuffer t).
Proof.
  unfold FinishTask.
  destruct (Kind t); rewrite ?Manager_Deliver, ?Manager_ExecuteIfBound;
    destruct (bSuccess t) eqn:Hs; try (left; done);
    right; apply bool_decide_eq_true in Hs; done.
Qed.









Lemma PairWhole_FinishTask (w : FWorld) (t : USlotDataTask) :
  PairWhole (Manager w) -> TaskWhole t -> PairWhole (Manager (FinishTask w t)).
Proof.
  unfold PairWhole, TaskWhole. intros Hw Ht.
  destruct (FinishTask_pair w t) as [[Hi Hd]|(_ & Hi & Hd)]; by rewrite Hi, Hd.
Qed.

Lemma PairWhole_foldl_FinishTask (ts : list USlotDataTask) : forall w : FWorld,
  PairWhole (Manager w) -> Forall TaskWhole ts ->
  PairWhole (Manager (foldl FinishTask w ts)).
Proof.
  induction ts as [|t ts IH]; intros w Hw Hts; [done|].
  apply Forall_cons in Hts as [Ht Hts]. cbn [foldl].
  apply IH; [by apply PairWhole_FinishTask | done].
Qed.













(** ** The properties at concrete worlds *)

Lemma exclusive_requests_never_overlap_witness :
  ExclusiveTasks (Manager SavingWorld) <> []
  /\ AtMostOneExclusive (Manager SavingWorld)
  /\ SaveSlot SavingWorld 4 true false FScreenshotSize_default None = (false, SavingWorld).
Proof.
  assert (ExclusiveTasks (Manager SavingWorld) <> []) as Hactive
    by (vm_compute; discriminate).
  destruct (exclusive_requests_never_overlap Preset5 ExampleDisk {| Records := [7] |} 100
              [ReqSaveSlot 3 true false FScreenshotSize_default None]) as [Hone Hrej].
  split; [exact Hactive|]. split; [exact Hone|].
  exact (proj1 (Hrej Hactive 4 true false FScreenshotSize_default None)).
Defined.

Lemma SaveSlot_fails_exactly_when_witness :
  fst (SaveSlot ExampleWorld 3 false false FScreenshotSize_default (Some 1%nat)) = false
  /\ snd (SaveSlot ExampleWorld 3 false false FScreenshotSize_default (Some 1%nat))
     = ExampleWorld.
Proof.
  destruct (SaveSlot_fails_exactly_when ExampleWorld 3 false false
              FScreenshotSize_default (Some 1%nat)) as (Hiff & Hsame & _).
  assert (fst (SaveSlot ExampleWorld 3 false false FScreenshotSize_default (Some 1%nat))
          = false) as Hfalse.
  { apply Hiff. right. right. split; [vm_compute; eauto | reflexivity]. }
  split; [exact Hfalse | exact (Hsame Hfalse)].
Defined.

Lemma LoadSlot_fails_synchronously_witness :
  Disk UnboundedWorld !! 7 = None
  /\ LoadSlot UnboundedWorld 7 (Some 1%nat) = (false, UnboundedWorld).
Proof.
  assert (Disk UnboundedWorld !! 7 = None) as Habsent by (vm_compute; reflexivity).
  split; [exact Habsent|].
  apply (proj1 (LoadSlot_fails_synchronously UnboundedWorld 7 (Some 1%nat))).
  right. left. exact Habsent.
Defined.

Lemma IsValidSlot_accepts_exactly_witness :
  IsValidSlot (Manager ExampleWorld) 3 = true
  /\ IsValidSlot (Manager ExampleWorld) 7 = false
  /\ LoadSlot ExampleWorld 7 None = (false, ExampleWorld).
Proof.
  destruct (IsValidSlot_accepts_exactly ExampleWorld 3) as [Haccept _].
  destruct (IsValidSlot_accepts_exactly ExampleWorld 7) as [_ Hreject].
  split.
  - apply Haccept. cbn. lia.
  - assert (7 < 0 \/ 0 < GetMaxSlots (GetPreset (Manager ExampleWorld))
                     /\ GetMaxSlots (GetPreset (Manager ExampleWorld)) <= 7) as Hbad
      by (cbn; lia).
    destruct (Hreject Hbad) as [Hinvalid Hrefused].
    split; [exact Hinvalid|].
    exact (proj2 (Hrefused true false FScreenshotSize_default None)).
Defined.

Lemma GenerateSlotName_decimal_or_empty_witness :
  GenerateSlotName (Manager ExampleWorld) 3 = FromInt 3
  /\ decimal_value (GenerateSlotName (Manager ExampleWorld) 3) = 3
  /\ GenerateSlotName (Manager ExampleWorld) 7 = EmptyString.
Proof.
  assert (in_int32 3) as H3 by (unfold in_int32, INT32_MIN, INT32_MAX; lia).
  assert (in_int32 7) as H7 by (unfold in_int32, INT32_MIN, INT32_MAX; lia).
  destruct (GenerateSlotName_decimal_or_empty (Manager ExampleWorld) 3 H3) as (Hvalid & _ & _).
  destruct (GenerateSlotName_decimal_or_empty (Manager ExampleWorld) 7 H7) as (_ & Hinvalid & _).
  destruct (Hvalid eq_refl) as (Hname & _ & Hvalue).
  destruct (Hinvalid eq_refl) as [Hempty _].
  split; [exact Hname|]. split; [exact Hvalue | exact Hempty].
Defined.

Lemma current_slot_getters_never_null_witness :
  CurrentInfo (Manager ExampleWorld) = None
  /\ fst (GetCurrentInfo (Manager ExampleWorld)) = Some EmptySlotInfo
  /\ fst (GetCurrentData (Manager ExampleWorld)) = Some EmptySlotData.
Proof.
  destruct (current_slot_getters_never_null ExampleWorld)
    as (_ & _ & Hinfo & Hdata & _).
  split; [reflexivity|]. split; [exact (Hinfo eq_refl) | exact (Hdata eq_refl)].
Defined.

Lemma fan_out_reaches_live_subscribers_in_order_witness :
  LiveSubscribers (Manager SubscribedWorld) = [SubscriberA; SubscriberB]
  /\ Events (Deliver SubscribedWorld (SaveFinished false) (Some 9%nat)
               (fun h => GameSaved h None))
     = Events SubscribedWorld
       ++ ((fun Object => Notified Object (SaveFinished false))
             <$> LiveSubscribers (Manager SubscribedWorld))
       ++ [GameSaved 9 None].
Proof.
  split; [vm_compute; reflexivity|].
  exact (proj2 (proj2 (fan_out_reaches_live_subscribers_in_order SubscribedWorld))
           (SaveFinished false) (Some 9%nat) (fun h => GameSaved h None)).
Defined.


Lemma null_slot_info_is_refused_witness :
  CurrentInfo (Manager ExampleWorld) = None
  /\ SaveCurrentSlot ExampleWorld false FScreenshotSize_default None = (false, ExampleWorld)
  /\ ReloadCurrentSlot ExampleWorld None = (false, ExampleWorld).
Proof.
  destruct (null_slot_info_is_refused ExampleWorld) as (_ & _ & _ & Hcurrent).
  destruct (Hcurrent eq_refl) as [Hsave Hreload].
  split; [reflexivity|].
  split; [exact (Hsave false FScreenshotSize_default None) | exact (Hreload None)].
Defined.

(** * Further properties of the header *)

(** ** Validation *)

(** X1. Slot 0 is valid under every preset, and the valid slots are closed
    downwards: below a valid slot every non-negative identifier is valid. *)
Theorem valid_slots_are_downward_closed (m : USaveManager) (S S' : int32) :
  IsValidSlot m 0 = true
  /\ (IsValidSlot m S = true -> 0 <= S' <= S -> IsValidSlot m S' = true).
Proof.
  rewrite !IsValidSlot_iff. lia.
Qed.

(** X2. A slot that is valid stays valid when the maximum is raised or
    lifted: under a preset that is unbounded (maximum not positive), or
    whose maximum is at least the positive maximum the slot was valid
    under. *)
Theorem raising_MaxSlots_keeps_slots_valid (m m' : USaveManager) (S : int32) :
  IsValidSlot m S = true ->
  GetMaxSlots (GetPreset m') <= 0
  \/ 0 < GetMaxSlots (GetPreset m) <= GetMaxSlots (GetPreset m') ->
  IsValidSlot m' S = true.
Proof.
  rewrite !IsValidSlot_iff. lia.
Qed.

(** X3. Under a positive maximum the valid identifiers are bounded by it, so
    a valid identifier is an [int32] below the maximum; under a maximum that
    is not positive no non-negative identifier is refused, the largest
    [int32] included. *)
Theorem MaxSlots_bounds_only_when_positive (m : USaveManager) :
  (0 < GetMaxSlots (GetPreset m) ->
   forall S : int32, IsValidSlot m S = true -> 0 <= S < GetMaxSlots (GetPreset m))
  /\ (GetMaxSlots (GetPreset m) <= 0 ->
      forall S : int32, IsValidSlot m S = negb (S <? 0))
  /\ (GetMaxSlots (GetPreset m) <= 0 -> IsValidSlot m INT32_MAX = true).
Proof.
  split; [|split].
  - intros HM S HS. apply IsValidSlot_iff in HS. lia.
  - intros HM S. destruct (Z.ltb_spec S 0) as [Hneg|Hpos]; cbn [negb].
    + apply IsValidSlot_false_iff. lia.
    + apply IsValidSlot_iff. lia.
  - intros HM. apply IsValidSlot_iff. unfold INT32_MAX. lia.
Qed.

(** ** Slot names *)

Lemma canonical_decimal_not_empty (s : string) :
  canonical_decimal s = true -> s <> EmptyString.
Proof. by destruct s. Qed.

(** X4. For an [int32] identifier the generated name is empty exactly when
    the identifier is invalid: the empty name is an unambiguous refusal. *)
Theorem GenerateSlotName_empty_iff_invalid (m : USaveManager) (SlotId : int32) :
  in_int32 SlotId ->
  (GenerateSlotName m SlotId = EmptyString <-> IsValidSlot m SlotId = false).
Proof.
  intros Hint. unfold GenerateSlotName.
  destruct (IsValidSlot m SlotId) eqn:Hv; [|done].
  apply IsValidSlot_iff in Hv as [Hpos _].
  destruct (FromInt_decimal SlotId Hpos Hint) as [Hc _].
  apply canonical_decimal_not_empty in Hc. split; [done|discriminate].
Qed.

(** X5. The name of a slot does not depend on the preset or on anything else
    in the manager as long as the slot is valid: a slot valid under two
    managers has the same name under both. *)
Theorem GenerateSlotName_stable_across_presets (m m' : USaveManager) (SlotId : int32) :
  IsValidSlot m SlotId = true -> IsValidSlot m' SlotId = true ->
  GenerateSlotName m SlotId = GenerateSlotName m' SlotId.
Proof. intros Hm Hm'. unfold GenerateSlotName. by rewrite Hm, Hm'. Qed.

Lemma string_length_snoc (s : string) (c : ascii) :
  String.length (String.append s (String c EmptyString)) = S (String.length s).
Proof.
  induction s as [|a s IH]; [done|].
  rewrite append_String. cbn [String.length]. by rewrite IH.
Qed.

Lemma AppendInt_loop_short (fuel : nat) : forall (digits : nat) (Num : Z),
  0 <= Num < 10 ^ Z.of_nat digits ->
  (String.length (AppendInt_loop fuel Num EmptyString) <= Nat.max 1 digits)%nat.
Proof.
  induction fuel as [|fuel IH]; intros digits Num HNum; [cbn; lia|].
  cbn [AppendInt_loop].
  destruct (Z.eqb_spec (Z.quot Num 10) 0) as [Hq|Hq]; [cbn; lia|].
  rewrite AppendInt_loop_buffer, string_length_snoc.
  rewrite Z.quot_div_nonneg in Hq |- * by lia.
  destruct digits as [|digits].
  { assert (Num = 0) by (cbn in HNum; lia). subst Num. done. }
  assert (0 <= Num / 10 < 10 ^ Z.of_nat digits) as Hrange.
  { split; [apply Z.div_pos; lia|]. apply Z.div_lt_upper_bound; [lia|].
    rewrite Nat2Z.inj_succ, Z.pow_succ_r in HNum by lia. lia. }
  specialize (IH digits (Num / 10) Hrange).
  destruct digits as [|digits]; [|lia].
  assert (Num / 10 = 0) by (cbn in Hrange; lia). done.
Qed.

(** X6. The name of a valid [int32] slot has at least one and at most ten
    characters: the digits fit the fifteen characters the conversion buffer
    has room for. *)
Theorem GenerateSlotName_length (m : USaveManager) (SlotId : int32) :
  in_int32 SlotId -> IsValidSlot m SlotId = true ->
  (1 <= String.length (GenerateSlotName m SlotId) <= 10)%nat.
Proof.
  intros [_ Hmax] Hv. unfold GenerateSlotName. rewrite Hv.
  apply IsValidSlot_iff in Hv as [Hpos _].
  assert (in_int32 SlotId) as Hint by (unfold in_int32, INT32_MIN; lia).
  destruct (FromInt_decimal SlotId Hpos Hint) as [Hc _].
  split.
  - apply canonical_decimal_not_empty in Hc.
    destruct (FromInt SlotId); [done | cbn; lia].
  - unfold FromInt. destruct (Z.ltb_spec SlotId 0) as [?|_]; [lia|].
    apply (AppendInt_loop_short 15 10). unfold INT32_MAX in Hmax. lia.
Qed.

(** ** The current slot members *)

(** X7. The two setters commute, a later call of a setter overrides an
    earlier one, and neither touches the preset, the subscribers or the
    active Tasks, so that validation, slot names and [HasTasks] are as
    before. *)
Theorem setters_commute_and_frame (m : USaveManager)
    (i i' : option USlotInfo) (d d' : option USlotData) :
  __SetCurrentData (__SetCurrentInfo m i) d = __SetCurrentInfo (__SetCurrentData m d) i
  /\ __SetCurrentInfo (__SetCurrentInfo m i) i' = __SetCurrentInfo m i'
  /\ __SetCurrentData (__SetCurrentData m d) d' = __SetCurrentData m d'
  /\ (forall S : int32,
        IsValidSlot (__SetCurrentInfo m i) S = IsValidSlot m S
        /\ IsValidSlot (__SetCurrentData m d) S = IsValidSlot m S
        /\ GenerateSlotName (__SetCurrentInfo m i) S = GenerateSlotName m S
        /\ GenerateSlotName (__SetCurrentData m d) S = GenerateSlotName m S)
  /\ HasTasks (__SetCurrentInfo m i) = HasTasks m
  /\ HasTasks (__SetCurrentData m d) = HasTasks m
  /\ (forall (T : Type) (Callback : option UObject -> T -> T) (s : T),
        IterateSubscribedInterfaces (__SetCurrentData (__SetCurrentInfo m i) d) Callback s
        = IterateSubscribedInterfaces m Callback s).
Proof. repeat split. Qed.

Lemma IsInSlot_iff (m : USaveManager) :
  IsInSlot m = true <-> CurrentInfo m <> None /\ CurrentData m <> None.
Proof.
  unfold IsInSlot. rewrite andb_true_iff, !bool_decide_eq_true, <- !not_eq_None_Some. done.
Qed.

(** X8. [IsInSlot] needs both members: a manager whose info or data is null is
    not in a slot, whatever the other member is; clearing either member with
    its setter leaves the slot, and setting one member alone enters a slot
    only if the other one was already there. *)
Theorem IsInSlot_needs_both_members (m : USaveManager) (i : USlotInfo) (d : USlotData) :
  (IsInSlot m = true <-> CurrentInfo m <> None /\ CurrentData m <> None)
  /\ IsInSlot (__SetCurrentInfo m None) = false
  /\ IsInSlot (__SetCurrentData m None) = false
  /\ (IsInSlot (__SetCurrentInfo m (Some i)) = true <-> CurrentData m <> None)
  /\ (IsInSlot (__SetCurrentData m (Some d)) = true <-> CurrentInfo m <> None)
  /\ IsInSlot (__SetCurrentData (__SetCurrentInfo m (Some i)) (Some d)) = true.
Proof.
  split; [apply IsInSlot_iff|].
  split; [by apply not_true_iff_false; rewrite IsInSlot_iff; intros [? _]|].
  split; [by apply not_true_iff_false; rewrite IsInSlot_iff; intros [_ ?]|].
  split; [|split; [|done]].
  - rewrite IsInSlot_iff. cbn [CurrentInfo CurrentData __SetCurrentInfo].
    split; [intros [_ Hd]; exact Hd | intros Hd; split; [discriminate | exact Hd]].
  - rewrite IsInSlot_iff. cbn [CurrentInfo CurrentData __SetCurrentData].
    split; [intros [Hi _]; exact Hi | intros Hi; split; [exact Hi | discriminate]].
Qed.

(** ** The loop over the subscribers *)

Lemma IterateInterfaces_app {T : Type} (Callback : option UObject -> T -> T)
    (l1 l2 : list TScriptInterface) : forall s : T,
  IterateInterfaces (l1 ++ l2) Callback s
  = IterateInterfaces l2 Callback (IterateInterfaces l1 Callback s).
Proof.
  induction l1 as [|Interface l1 IH]; intros s; [done|].
  cbn [app IterateInterfaces]. apply IH.
Qed.

(** X9. When no subscribed interface holds an object, and so when nobody has
    subscribed, the callback is not run and the state comes back as it was. *)
Theorem no_live_subscriber_no_callback {T : Type} (m : USaveManager)
    (Callback : option UObject -> T -> T) (s : T) :
  Forall (fun Interface => GetObject Interface = None) (SubscribedInterfaces m) ->
  IterateSubscribedInterfaces m Callback s = s.
Proof.
  unfold IterateSubscribedInterfaces.
  generalize (SubscribedInterfaces m) as l.
  induction l as [|Interface l IH]; intros Hdead; [done|].
  apply Forall_cons in Hdead as [Hhead Htail].
  cbn [IterateInterfaces]. rewrite Hhead. by apply IH.
Qed.

(** X10. The callback is never handed a null object: two callbacks that agree
    on every object that is not null leave the same state, whatever they
    would do on null. *)
Theorem callback_never_sees_null {T : Type} (m : USaveManager)
    (Callback1 Callback2 : option UObject -> T -> T) (s : T) :
  (forall (Object : UObject) (t : T), Callback1 (Some Object) t = Callback2 (Some Object) t) ->
  IterateSubscribedInterfaces m Callback1 s = IterateSubscribedInterfaces m Callback2 s.
Proof.
  intros Hagree. unfold IterateSubscribedInterfaces.
  generalize (SubscribedInterfaces m) as l. intros l. revert s.
  induction l as [|Interface l IH]; intros s; [done|].
  cbn [IterateInterfaces]. destruct (GetObject Interface); [rewrite Hagree|]; apply IH.
Qed.

(** X11. Iterating over an array of subscribers is iterating over its front
    part and then, from the state reached, over the rest. *)
Theorem iteration_splits_at_any_point {T : Type} (m m1 m2 : USaveManager)
    (Callback : option UObject -> T -> T) (s : T) :
  SubscribedInterfaces m = SubscribedInterfaces m1 ++ SubscribedInterfaces m2 ->
  IterateSubscribedInterfaces m Callback s
  = IterateSubscribedInterfaces m2 Callback (IterateSubscribedInterfaces m1 Callback s).
Proof.
  intros Hsplit. unfold IterateSubscribedInterfaces. rewrite Hsplit.
  apply IterateInterfaces_app.
Qed.

Lemma IterateInterfaces_count (l : list TScriptInterface) : forall n : nat,
  IterateInterfaces l (fun _ k => S k) n = (n + List.length (omap GetObject l))%nat.
Proof.
  induction l as [|Interface l IH]; intros n; cbn [IterateInterfaces omap list_omap].
  - cbn. lia.
  - destruct (GetObject Interface); rewrite IH; cbn [List.length]; lia.
Qed.

(** X12. The callback runs once per entry of the array whose object is not
    null: the number of calls is the number of such entries, which is at most
    the size of the array. *)
Theorem callback_runs_once_per_live_entry (m : USaveManager) :
  IterateSubscribedInterfaces m (fun _ k => S k) 0%nat
  = List.length (LiveSubscribers m)
  /\ (List.length (LiveSubscribers m) <= List.length (SubscribedInterfaces m))%nat.
Proof.
  split.
  - unfold IterateSubscribedInterfaces, LiveSubscribers.
    by rewrite IterateInterfaces_count.
  - unfold LiveSubscribers. generalize (SubscribedInterfaces m) as l.
    induction l as [|Interface l IH]; cbn [omap list_omap List.length]; [lia|].
    destruct (GetObject Interface); cbn [List.length]; lia.
Qed.

(** ** The Blueprint wrappers *)

(** X13. [BPSaveSlot] on a null [SlotInfo] leaves [Failed] in [Result] without
    calling [BPSaveSlotToId], whatever [Result] held; on a [SlotInfo] it is
    [BPSaveSlotToId] on its [Id], so that two infos with the same [Id] are
    saved alike. [BPSaveCurrentSlot] does this with the current info and
    always asks to override. *)
Theorem BPSaveSlot_outcomes {R L : Type} (Failed : R)
    (ToId : FWorld -> int32 -> bool -> FScreenshotSize -> R -> L -> bool -> R * FWorld)
    (w : FWorld) (bScreenshot : bool) (Size : FScreenshotSize) (Result : R)
    (LatentInfo : L) (bOverrideIfNeeded : bool) :
  BPSaveSlot Failed ToId w None bScreenshot Size Result LatentInfo bOverrideIfNeeded
  = (Failed, w)
  /\ (forall Info : USlotInfo,
        BPSaveSlot Failed ToId w (Some Info) bScreenshot Size Result LatentInfo
          bOverrideIfNeeded
        = ToId w (Id Info) bScreenshot Size Result LatentInfo bOverrideIfNeeded)
  /\ (forall Info Info' : USlotInfo,
        Id Info = Id Info' ->
        BPSaveSlot Failed ToId w (Some Info) bScreenshot Size Result LatentInfo
          bOverrideIfNeeded
        = BPSaveSlot Failed ToId w (Some Info') bScreenshot Size Result LatentInfo
            bOverrideIfNeeded)
  /\ (CurrentInfo (Manager w) = None ->
      BPSaveCurrentSlot Failed ToId w bScreenshot Size Result LatentInfo = (Failed, w))
  /\ (forall Info : USlotInfo,
        CurrentInfo (Manager w) = Some Info ->
        BPSaveCurrentSlot Failed ToId w bScreenshot Size Result LatentInfo
        = ToId w (Id Info) bScreenshot Size Result LatentInfo true).
Proof.
  split; [done|]. split; [done|]. split.
  - intros Info Info' Hid. cbn [BPSaveSlot]. by rewrite Hid.
  - unfold BPSaveCurrentSlot. split.
    + intros Hnull. by rewrite Hnull.
    + intros Info Hcur. by rewrite Hcur.
Qed.

(** X14. [BPLoadSlot] on a null [SlotInfo] leaves [Failed] in [Result] without
    calling [BPLoadSlotFromId]; on a [SlotInfo] it is [BPLoadSlotFromId] on
    its [Id]. [BPReloadCurrentSlot] does this with the current info, and
    so fails when there is none. *)
Theorem BPLoadSlot_outcomes {R L : Type} (Failed : R)
    (FromId : FWorld -> int32 -> R -> L -> R * FWorld)
    (w : FWorld) (Result : R) (LatentInfo : L) :
  BPLoadSlot Failed FromId w None Result LatentInfo = (Failed, w)
  /\ (forall Info : USlotInfo,
        BPLoadSlot Failed FromId w (Some Info) Result LatentInfo
        = FromId w (Id Info) Result LatentInfo)
  /\ (forall Info Info' : USlotInfo,
        Id Info = Id Info' ->
        BPLoadSlot Failed FromId w (Some Info) Result LatentInfo
        = BPLoadSlot Failed FromId w (Some Info') Result LatentInfo)
  /\ (CurrentInfo (Manager w) = None ->
      BPReloadCurrentSlot Failed FromId w Result LatentInfo = (Failed, w))
  /\ (forall Info : USlotInfo,
        CurrentInfo (Manager w) = Some Info ->
        BPReloadCurrentSlot Failed FromId w Result LatentInfo
        = FromId w (Id Info) Result LatentInfo).
Proof.
  split; [done|]. split; [done|]. split.
  - intros Info Info' Hid. cbn [BPLoadSlot]. by rewrite Hid.
  - unfold BPReloadCurrentSlot. split.
    + intros Hnull. by rewrite Hnull.
    + intros Info Hcur. by rewrite Hcur.
Qed.

(** X15. The C++ overloads taking a [USlotInfo*] read nothing but its [Id]:
    two infos with the same [Id] are saved, loaded and deleted alike, and
    with a current info [SaveCurrentSlot] is [SaveSlot] on its [Id] with the
    override asked for, [ReloadCurrentSlot] is [LoadSlot] on its [Id]. *)
Theorem slot_info_overloads_read_only_the_Id (w : FWorld) (Info Info' : USlotInfo) :
  Id Info = Id Info' ->
  (forall (bOverrideIfNeeded bScreenshot : bool) (Size : FScreenshotSize) (d : FDelegate),
     SaveSlotInfo w (Some Info) bOverrideIfNeeded bScreenshot Size d
     = SaveSlotInfo w (Some Info') bOverrideIfNeeded bScreenshot Size d)
  /\ (forall d : FDelegate, LoadSlotInfo w (Some Info) d = LoadSlotInfo w (Some Info') d)
  /\ DeleteSlotInfo w (Some Info) = DeleteSlotInfo w (Some Info')
  /\ (CurrentInfo (Manager w) = Some Info ->
      (forall (bScreenshot : bool) (Size : FScreenshotSize) (d : FDelegate),
         SaveCurrentSlot w bScreenshot Size d = SaveSlot w (Id Info) true bScreenshot Size d)
      /\ (forall d : FDelegate, ReloadCurrentSlot w d = LoadSlot w (Id Info) d)).
Proof.
  intros Hid. cbn [SaveSlotInfo LoadSlotInfo DeleteSlotInfo]. rewrite Hid.
  split; [done|]. split; [done|]. split; [done|].
  intros Hcur. unfold SaveCurrentSlot, ReloadCurrentSlot. rewrite Hcur.
  cbn [SaveSlotInfo LoadSlotInfo]. by rewrite Hid.
Qed.

(** ** The conversion of the slot identifier *)

Lemma to_uint32_nonneg (z : Z) : 0 <= z < 2 ^ 32 -> to_uint32 z = z.
Proof. intros Hz. unfold to_uint32. by apply Z.mod_small. Qed.

Lemma to_uint32_neg (z : Z) : - 2 ^ 32 <= z < 0 -> to_uint32 z = z + 2 ^ 32.
Proof.
  intros Hz. unfold to_uint32.
  rewrite <- (Z.mod_add z 1 (2 ^ 32)) by lia.
  rewrite Z.mul_1_l. apply Z.mod_small. lia.
Qed.

(** X16. [GetSlotInfo] hands [LoadInfo] the identifier converted to [uint32]:
    a non-negative [int32] arrives as it is, a negative one arrives as the
    identifier plus 2^32, above every [int32]; no validation comes
    first. *)
Theorem GetSlotInfo_converts_the_identifier
    (LoadInfo : FWorld -> Z -> option USlotInfo) (w : FWorld) (SlotId : int32) :
  in_int32 SlotId ->
  (0 <= SlotId -> GetSlotInfo LoadInfo w SlotId = LoadInfo w SlotId)
  /\ (SlotId < 0 ->
      GetSlotInfo LoadInfo w SlotId = LoadInfo w (SlotId + 2 ^ 32)
      /\ INT32_MAX < SlotId + 2 ^ 32 < 2 ^ 32).
Proof.
  unfold in_int32, INT32_MIN, INT32_MAX, GetSlotInfo. intros Hint. split.
  - intros Hpos. rewrite to_uint32_nonneg; [done | lia].
  - intros Hneg. rewrite to_uint32_neg; [split; [done | lia] | lia].
Qed.

(** X17. The conversion to [uint32] keeps distinct [int32] identifiers
    distinct, and leaves every valid slot identifier as it is: for a valid
    slot [GetSlotInfo] asks [LoadInfo] for that very slot. *)
Theorem to_uint32_faithful_on_int32 (m : USaveManager) (a b : int32) :
  in_int32 a -> in_int32 b ->
  (to_uint32 a = to_uint32 b -> a = b)
  /\ (IsValidSlot m a = true -> to_uint32 a = a).
Proof.
  unfold in_int32, INT32_MIN, INT32_MAX. intros Ha Hb. split.
  - intros Heq.
    destruct (Z.lt_ge_cases a 0), (Z.lt_ge_cases b 0);
      rewrite ?(to_uint32_neg a), ?(to_uint32_neg b),
              ?(to_uint32_nonneg a), ?(to_uint32_nonneg b) in Heq by lia; lia.
  - intros Hv. apply IsValidSlot_iff in Hv as [Hpos _].
    apply to_uint32_nonneg. lia.
Qed.

(** ** The further properties at concrete worlds *)

Lemma valid_slots_are_downward_closed_witness :
  IsValidSlot (Manager ExampleWorld) 4 = true
  /\ IsValidSlot (Manager ExampleWorld) 2 = true
  /\ IsValidSlot (Manager ExampleWorld) 0 = true.
Proof.
  assert (IsValidSlot (Manager ExampleWorld) 4 = true) as H4 by reflexivity.
  destruct (valid_slots_are_downward_closed (Manager ExampleWorld) 4 2) as [Hzero Hbelow].
  split; [exact H4|]. split; [|exact Hzero].
  apply (Hbelow H4). lia.
Defined.

Lemma raising_MaxSlots_keeps_slots_valid_witness :
  IsValidSlot (Manager ExampleWorld) 4 = true
  /\ IsValidSlot (Manager UnboundedWorld) 4 = true.
Proof.
  assert (IsValidSlot (Manager ExampleWorld) 4 = true) as H4 by reflexivity.
  split; [exact H4|].
  apply (raising_MaxSlots_keeps_slots_valid (Manager ExampleWorld) (Manager UnboundedWorld) 4 H4).
  left. cbn. lia.
Defined.

Lemma MaxSlots_bounds_only_when_positive_witness :
  0 <= 4 < GetMaxSlots (GetPreset (Manager ExampleWorld))
  /\ IsValidSlot (Manager UnboundedWorld) INT32_MAX = true.
Proof.
  destruct (MaxSlots_bounds_only_when_positive (Manager ExampleWorld)) as [Hbounded _].
  destruct (MaxSlots_bounds_only_when_positive (Manager UnboundedWorld)) as (_ & _ & Hfree).
  split.
  - apply Hbounded; [cbn; lia | reflexivity].
  - apply Hfree. cbn. lia.
Defined.

Lemma GenerateSlotName_empty_iff_invalid_witness :
  GenerateSlotName (Manager ExampleWorld) 5 = EmptyString.
Proof.
  apply (GenerateSlotName_empty_iff_invalid (Manager ExampleWorld) 5).
  - unfold in_int32, INT32_MIN, INT32_MAX. lia.
  - reflexivity.
Defined.

Lemma GenerateSlotName_stable_across_presets_witness :
  GenerateSlotName (Manager ExampleWorld) 4 = GenerateSlotName (Manager UnboundedWorld) 4.
Proof.
  apply GenerateSlotName_stable_across_presets; reflexivity.
Defined.

Lemma GenerateSlotName_length_witness :
  (1 <= String.length (GenerateSlotName (Manager UnboundedWorld) INT32_MAX) <= 10)%nat.
Proof.
  apply GenerateSlotName_length.
  - unfold in_int32, INT32_MIN, INT32_MAX. lia.
  - reflexivity.
Defined.

Lemma no_live_subscriber_no_callback_witness :
  IterateSubscribedInterfaces (Manager DeadWorld) (Notify SaveBegan) [] = [].
Proof.
  apply no_live_subscriber_no_callback.
  apply (bool_decide_unpack _). vm_compute. exact I.
Defined.

Lemma callback_never_sees_null_witness :
  IterateSubscribedInterfaces (Manager SubscribedWorld) (Notify LoadBegan) []
  = IterateSubscribedInterfaces (Manager SubscribedWorld)
      (fun Object tr => match Object with
                        | Some o => tr ++ [Notified o LoadBegan]
                        | None => tr
                        end) [].
Proof.
  apply callback_never_sees_null. intros Object t. reflexivity.
Defined.

Lemma iteration_splits_at_any_point_witness :
  IterateSubscribedInterfaces (Manager JoinedWorld) (Notify LoadBegan) []
  = IterateSubscribedInterfaces (Manager DeadWorld) (Notify LoadBegan)
      (IterateSubscribedInterfaces (Manager SubscribedWorld) (Notify LoadBegan) []).
Proof.
  apply iteration_splits_at_any_point. reflexivity.
Defined.

Lemma BPSaveSlot_outcomes_witness :
  BPSaveCurrentSlot false (fun w _ _ _ _ (_ : unit) _ => (true, w)) ExampleWorld
    false FScreenshotSize_default true tt
  = (false, ExampleWorld)
  /\ BPSaveCurrentSlot false (fun w _ _ _ _ (_ : unit) _ => (true, w)) LoadedWorld
       false FScreenshotSize_default false tt
     = (true, LoadedWorld).
Proof.
  split.
  - apply (BPSaveSlot_outcomes false (fun w _ _ _ _ (_ : unit) _ => (true, w)) ExampleWorld
             false FScreenshotSize_default true tt true).
    reflexivity.
  - apply (proj2 (proj2 (proj2 (proj2
             (BPSaveSlot_outcomes false (fun w _ _ _ _ (_ : unit) _ => (true, w)) LoadedWorld
                false FScreenshotSize_default false tt true)))) Info1).
    vm_compute. reflexivity.
Defined.

Lemma BPLoadSlot_outcomes_witness :
  BPReloadCurrentSlot false (fun w _ _ (_ : unit) => (true, w)) ExampleWorld true tt
  = (false, ExampleWorld).
Proof.
  apply (BPLoadSlot_outcomes false (fun w _ _ (_ : unit) => (true, w)) ExampleWorld true tt).
  reflexivity.
Defined.

Lemma slot_info_overloads_read_only_the_Id_witness :
  LoadSlotInfo ExampleWorld (Some Info1) None = LoadSlotInfo ExampleWorld (Some Info1Later) None
  /\ DeleteSlotInfo ExampleWorld (Some Info1) = DeleteSlotInfo ExampleWorld (Some Info1Later).
Proof.
  destruct (slot_info_overloads_read_only_the_Id ExampleWorld Info1 Info1Later eq_refl)
    as (_ & Hload & Hdelete & _).
  split; [exact (Hload None) | exact Hdelete].
Defined.

Lemma GetSlotInfo_converts_the_identifier_witness :
  GetSlotInfo (fun w Slot => fst <$> (Disk w !! Slot)) ExampleWorld 2 = Some Info2
  /\ GetSlotInfo (fun w Slot => fst <$> (Disk w !! Slot)) ExampleWorld (-1)
     = fst <$> (Disk ExampleWorld !! 4294967295).
Proof.
  assert (in_int32 2) as H2 by (unfold in_int32, INT32_MIN, INT32_MAX; lia).
  assert (in_int32 (-1)) as H1 by (unfold in_int32, INT32_MIN, INT32_MAX; lia).
  split.
  - rewrite (proj1 (GetSlotInfo_converts_the_identifier _ ExampleWorld 2 H2)) by lia.
    vm_compute. reflexivity.
  - exact (proj1 (proj2 (GetSlotInfo_converts_the_identifier
                           (fun w Slot => fst <$> (Disk w !! Slot)) ExampleWorld (-1) H1)
                        ltac:(lia))).
Defined.

Lemma to_uint32_faithful_on_int32_witness :
  to_uint32 3 = 3 /\ (to_uint32 (-1) = to_uint32 INT32_MAX -> -1 = INT32_MAX).
Proof.
  assert (in_int32 3) as H3 by (unfold in_int32, INT32_MIN, INT32_MAX; lia).
  assert (in_int32 (-1)) as H1 by (unfold in_int32, INT32_MIN, INT32_MAX; lia).
  assert (in_int32 INT32_MAX) as HM by (unfold in_int32, INT32_MIN, INT32_MAX; lia).
  split.
  - apply (proj2 (to_uint32_faithful_on_int32 (Manager ExampleWorld) 3 3 H3 H3)). reflexivity.
  - exact (proj1 (to_uint32_faithful_on_int32 (Manager ExampleWorld) (-1) INT32_MAX H1 HM)).
Defined.
